(** * Prediction parameterisation: aggregation of model parameters and
      detector-space gradients

    A shallow embedding of
    [algorithms/refinement/parameterisation/prediction_parameters.py].

    Conventions of the embedding:
    - Python floats are idealised as exact rationals ([Q]); rounding,
      overflow and NaN are outside the model.  Float division raises
      [ZeroDivisionError] on a zero divisor, as in Python.
    - Python exceptions are values of [exn]; a computation that may raise
      returns a [result].
    - Lists that the source mutates in place ([dpv_dp], [dphi_dp]) and the
      contained model parameterisations are threaded explicitly.
    - The four groups of model parameterisations are duck-typed objects
      in the source; here each group has its own state type with an
      instance of the interface [Model.Parameterisation]. *)

From Stdlib Require Import String Ascii List Bool Arith ZArith QArith Qabs Lia.
From Stdlib Require Import Decimal DecimalNat DecimalString.
Import ListNotations.

Close Scope Q_scope.
Open Scope nat_scope.

Set Implicit Arguments.

(* ================================================================= *)
(** ** Exceptions and results *)

Inductive exn : Type :=
| AssertionError
| StopIteration
| ValueError
| ZeroDivisionError
| UnboundLocalError
| IndexError
| ModelError (msg : string).

Inductive result (A : Type) : Type :=
| Ok (a : A)
| Raise (e : exn).

Arguments Ok {A} a.
Arguments Raise {A} e.

Definition bind {A B : Type} (c : result A) (k : A -> result B) : result B :=
  match c with
  | Ok a => k a
  | Raise e => Raise e
  end.

Declare Scope py_scope.
Delimit Scope py_scope with py.
Notation "x <- c ;; k" := (bind c (fun x => k))
  (at level 61, c at next level, right associativity) : py_scope.
Notation "' p <- c ;; k" := (bind c (fun x => let 'p := x in k))
  (at level 61, p pattern, c at next level, right associativity) : py_scope.

(** A list comprehension whose element expression may raise. *)
Fixpoint comprehension {A B : Type} (f : A -> result B) (xs : list A)
  : result (list B) :=
  match xs with
  | [] => Ok []
  | x :: xs' =>
      match f x with
      | Raise e => Raise e
      | Ok y =>
          match comprehension f xs' with
          | Raise e => Raise e
          | Ok ys => Ok (y :: ys)
          end
      end
  end.

(** A [for] loop over a list whose body may [return] from the enclosing
    function, fall through to the next iteration, or raise. *)
Inductive flow (S : Type) : Type :=
| Continue (s : S)
| Return (s : S).

Arguments Continue {S} s.
Arguments Return {S} s.

Fixpoint for_each {X S : Type} (body : X -> S -> result (flow S))
  (xs : list X) (s : S) : result S :=
  match xs with
  | [] => Ok s
  | x :: xs' =>
      match body x s with
      | Raise e => Raise e
      | Ok (Return s') => Ok s'
      | Ok (Continue s') => for_each body xs' s'
      end
  end.

(** [enumerate(l)] *)
Definition enumerate {A : Type} (l : list A) : list (nat * A) :=
  combine (seq 0 (length l)) l.

(** An optional list attribute, tested with [if self._xs:]: both [None]
    and the empty list are false. *)
Definition group (M : Type) : Type := option (list M).

Definition truthy {M : Type} (g : group M) : bool :=
  match g with
  | Some (_ :: _) => true
  | _ => false
  end.

Definition members {M : Type} (g : group M) : list M :=
  match g with
  | Some l => l
  | None => []
  end.

(* ================================================================= *)
(** ** Scalars, vectors and matrices ([scitbx.matrix]) *)

Definition Qgtb (a b : Q) : bool := negb (Qle_bool a b).

(** [a / b] on floats. *)
Definition py_div (a b : Q) : result Q :=
  if Qeq_bool b 0 then Raise ZeroDivisionError else Ok (a / b)%Q.

(** [int(x)]: truncation towards zero. *)
Definition py_int (x : Q) : Z := Z.quot (Qnum x) (Zpos (Qden x)).

Record vec3 : Type := col { vx : Q; vy : Q; vz : Q }.

(** A 3x3 matrix, row by row. *)
Record mat3 : Type := sqr { row0 : vec3; row1 : vec3; row2 : vec3 }.

Definition dot (a b : vec3) : Q :=
  (vx a * vx b + vy a * vy b + vz a * vz b)%Q.

Definition cross (a b : vec3) : vec3 :=
  col (vy a * vz b - vy b * vz a)%Q
      (vz a * vx b - vz b * vx a)%Q
      (vx a * vy b - vx b * vy a)%Q.

Definition vadd (a b : vec3) : vec3 :=
  col (vx a + vx b)%Q (vy a + vy b)%Q (vz a + vz b)%Q.

(** [v * k] for a column [v] and a number [k]. *)
Definition vscale (v : vec3) (k : Q) : vec3 :=
  col (vx v * k)%Q (vy v * k)%Q (vz v * k)%Q.

Definition vzero : vec3 := col 0 0 0.

Definition mat_vec (m : mat3) (v : vec3) : vec3 :=
  col (dot (row0 m) v) (dot (row1 m) v) (dot (row2 m) v).

Definition column0 (m : mat3) : vec3 := col (vx (row0 m)) (vx (row1 m)) (vx (row2 m)).
Definition column1 (m : mat3) : vec3 := col (vy (row0 m)) (vy (row1 m)) (vy (row2 m)).
Definition column2 (m : mat3) : vec3 := col (vz (row0 m)) (vz (row1 m)) (vz (row2 m)).

Definition row_mat (r : vec3) (m : mat3) : vec3 :=
  col (dot r (column0 m)) (dot r (column1 m)) (dot r (column2 m)).

Definition mat_mul (a b : mat3) : mat3 :=
  sqr (row_mat (row0 a) b) (row_mat (row1 a) b) (row_mat (row2 a) b).

Definition vneg (v : vec3) : vec3 := col (- vx v)%Q (- vy v)%Q (- vz v)%Q.

(** Unary minus on a matrix. *)
Definition mat_neg (m : mat3) : mat3 :=
  sqr (vneg (row0 m)) (vneg (row1 m)) (vneg (row2 m)).

Definition identity : mat3 := sqr (col 1 0 0) (col 0 1 0) (col 0 0 1).

(** The operations of [scitbx.matrix] that leave the rationals: the
    rotation about an axis by an angle, and the two calls that form the
    last diagnostic line, the normalisation of a vector and the acute
    angle between two vectors ([None] when undefined).  The library is
    not part of the source, so nothing is assumed about the two
    diagnostic calls: either may raise. *)
Class MatrixLib : Type := {
  axis_and_angle_as_r3_rotation_matrix : vec3 -> Q -> mat3;
  normalize : vec3 -> result vec3;
  accute_angle : vec3 -> vec3 -> result (option Q)
}.

(* ================================================================= *)
(** ** The interface of a model parameterisation *)

Module Model.

(** What the aggregate calls on a contained model parameterisation with
    state [M]; [T] is the type of the entries of [get_ds_dp].  The
    setter returns the state it leaves behind together with the
    exception it raised, if any. *)
Class Parameterisation (M T : Type) : Type := {
  num_free : M -> nat;
  get_param_vals : M -> list Q;
  get_param_names : M -> list string;
  set_param_vals : M -> list Q -> M * option exn;
  get_ds_dp : M -> list T
}.

End Model.

(* ================================================================= *)
(** ** The underlying experimental models *)

Record Panel : Type := { get_D_matrix : mat3 }.
Record BeamModel : Type := { get_s0 : vec3 }.
Record CrystalModel : Type := { get_U : mat3; get_B : mat3 }.
Record GoniometerModel : Type := { get_rotation_axis : vec3 }.

(** The attributes assigned by [prepare]. *)
Record Geometry : Type := {
  _D : mat3;
  _s0 : vec3;
  _U : mat3;
  _B : mat3;
  _axis : vec3
}.

(** What the except block of [_get_gradients_core] prints, item by item. *)
Inductive printed : Type :=
| Str (s : string)
| Num (q : Q)
| Vec (v : vec3)
| Mat (m : mat3)
| Angle (a : option Q).

Definition line : Type := list printed.

(** Decimal rendering of a non-negative integer: ["%d" % i]. *)
Definition percent_d (i : nat) : string := NilZero.string_of_uint (Nat.to_uint i).

(* ================================================================= *)
(** ** class PredictionParameterisation *)

Module PredictionParameterisation.

Section Aggregate.

Context {DetP BeamP XloP XlucP : Type}.
Context {det_model : Model.Parameterisation DetP mat3}.
Context {beam_model : Model.Parameterisation BeamP vec3}.
Context {xlo_model : Model.Parameterisation XloP mat3}.
Context {xluc_model : Model.Parameterisation XlucP mat3}.

(** The attributes set by [__init__]; [_length] caches [_len()]. *)
Record t : Type := {
  _detector : list Panel;
  _beam : BeamModel;
  _crystal : CrystalModel;
  _gonio : GoniometerModel;
  _detector_parameterisations : group DetP;
  _beam_parameterisations : group BeamP;
  _xl_orientation_parameterisations : group XloP;
  _xl_unit_cell_parameterisations : group XlucP;
  _length : nat
}.

Definition with_length (self : t) (n : nat) : t :=
  Build_t (_detector self) (_beam self) (_crystal self) (_gonio self)
    (_detector_parameterisations self) (_beam_parameterisations self)
    (_xl_orientation_parameterisations self)
    (_xl_unit_cell_parameterisations self) n.

Definition with_detector_parameterisations (self : t) (g : group DetP) : t :=
  Build_t (_detector self) (_beam self) (_crystal self) (_gonio self)
    g (_beam_parameterisations self)
    (_xl_orientation_parameterisations self)
    (_xl_unit_cell_parameterisations self) (_length self).

Definition with_beam_parameterisations (self : t) (g : group BeamP) : t :=
  Build_t (_detector self) (_beam self) (_crystal self) (_gonio self)
    (_detector_parameterisations self) g
    (_xl_orientation_parameterisations self)
    (_xl_unit_cell_parameterisations self) (_length self).

Definition with_xl_orientation_parameterisations (self : t) (g : group XloP) : t :=
  Build_t (_detector self) (_beam self) (_crystal self) (_gonio self)
    (_detector_parameterisations self) (_beam_parameterisations self)
    g (_xl_unit_cell_parameterisations self) (_length self).

Definition with_xl_unit_cell_parameterisations (self : t) (g : group XlucP) : t :=
  Build_t (_detector self) (_beam self) (_crystal self) (_gonio self)
    (_detector_parameterisations self) (_beam_parameterisations self)
    (_xl_orientation_parameterisations self) g (_length self).

(** One [if self._xs: for model in self._xs: length += model.num_free()]
    block of [_len]. *)
Definition _len_group {M T : Type} {P : Model.Parameterisation M T}
  (g : group M) (length : nat) : nat :=
  if truthy g then
    fold_left (fun length model => length + Model.num_free model) (members g) length
  else length.

Definition _len (self : t) : nat :=
  let length := 0 in
  let length := _len_group (_detector_parameterisations self) length in
  let length := _len_group (_beam_parameterisations self) length in
  let length := _len_group (_xl_orientation_parameterisations self) length in
  let length := _len_group (_xl_unit_cell_parameterisations self) length in
  length.

Definition __init__ (detector_model : list Panel) (beam_model' : BeamModel)
  (crystal_model : CrystalModel) (goniometer_model : GoniometerModel)
  (detector_parameterisations : group DetP)
  (beam_parameterisations : group BeamP)
  (xl_orientation_parameterisations : group XloP)
  (xl_unit_cell_parameterisations : group XlucP) : t :=
  let self :=
    Build_t detector_model beam_model' crystal_model goniometer_model
      detector_parameterisations beam_parameterisations
      xl_orientation_parameterisations xl_unit_cell_parameterisations 0 in
  with_length self (_len self).

(** [len(self)] *)
Definition __len__ (self : t) : nat := _length self.

(** One block of [get_param_vals]. *)
Definition get_param_vals_group {M T : Type} {P : Model.Parameterisation M T}
  (g : group M) (global_p_list : list Q) : list Q :=
  if truthy g then
    let plists := map Model.get_param_vals (members g) in
    let params := concat plists in
    global_p_list ++ params
  else global_p_list.

Definition get_param_vals (self : t) : list Q :=
  let global_p_list := [] in
  let global_p_list := get_param_vals_group (_detector_parameterisations self) global_p_list in
  let global_p_list := get_param_vals_group (_beam_parameterisations self) global_p_list in
  let global_p_list := get_param_vals_group (_xl_orientation_parameterisations self) global_p_list in
  let global_p_list := get_param_vals_group (_xl_unit_cell_parameterisations self) global_p_list in
  global_p_list.

(** One block of [get_param_names]; [label] is the text before [%d]. *)
Definition get_param_names_group {M T : Type} {P : Model.Parameterisation M T}
  (label : string) (g : group M) (param_names : list string) : list string :=
  if truthy g then
    let param_name_lists := map Model.get_param_names (members g) in
    let names :=
      flat_map (fun il => map (fun x => ((label ++ percent_d (fst il)) ++ x)%string) (snd il))
               (enumerate param_name_lists) in
    param_names ++ names
  else param_names.

Definition get_param_names (self : t) : list string :=
  let param_names := [] in
  let param_names := get_param_names_group "Detector" (_detector_parameterisations self) param_names in
  let param_names := get_param_names_group "Source" (_beam_parameterisations self) param_names in
  let param_names := get_param_names_group "Crystal" (_xl_orientation_parameterisations self) param_names in
  let param_names := get_param_names_group "Crystal" (_xl_unit_cell_parameterisations self) param_names in
  param_names.

(** [[it.next() for i in range(n)]]: the values taken and the iterator
    left behind; [StopIteration] when the iterator runs dry. *)
Fixpoint next_n (n : nat) (it : list Q) : result (list Q * list Q) :=
  match n with
  | O => Ok ([], it)
  | S n' =>
      match it with
      | [] => Raise StopIteration
      | x :: it' =>
          match next_n n' it' with
          | Raise e => Raise e
          | Ok (tmp, it'') => Ok (x :: tmp, it'')
          end
      end
  end.

(** [for model in models: tmp = ...; model.set_param_vals(tmp)].  The
    loop stops at the first exception and leaves the models visited so
    far as their setters left them. *)
Fixpoint set_param_vals_models {M T : Type} {P : Model.Parameterisation M T}
  (models : list M) (it : list Q) : list M * list Q * option exn :=
  match models with
  | [] => ([], it, None)
  | model :: rest =>
      match next_n (Model.num_free model) it with
      | Raise e => (model :: rest, it, Some e)
      | Ok (tmp, it') =>
          match Model.set_param_vals model tmp with
          | (model', Some e) => (model' :: rest, it', Some e)
          | (model', None) =>
              let '(rest', it'', r) := set_param_vals_models rest it' in
              (model' :: rest', it'', r)
          end
      end
  end.

(** One block of [set_param_vals]. *)
Definition set_param_vals_group {M T : Type} {P : Model.Parameterisation M T}
  (g : group M) (it : list Q) : group M * list Q * option exn :=
  if truthy g then
    let '(models, it', r) := set_param_vals_models (members g) it in
    (Some models, it', r)
  else (g, it, None).

(** [set_param_vals(vals)]: the object as the call leaves it, and the
    exception that escaped, if any. *)
Definition set_param_vals (self : t) (vals : list Q) : t * option exn :=
  if negb (length vals =? __len__ self) then (self, Some AssertionError)
  else
    let it := vals in
    let '(g, it, r) := set_param_vals_group (_detector_parameterisations self) it in
    let self := with_detector_parameterisations self g in
    match r with
    | Some e => (self, Some e)
    | None =>
    let '(g, it, r) := set_param_vals_group (_beam_parameterisations self) it in
    let self := with_beam_parameterisations self g in
    match r with
    | Some e => (self, Some e)
    | None =>
    let '(g, it, r) := set_param_vals_group (_xl_orientation_parameterisations self) it in
    let self := with_xl_orientation_parameterisations self g in
    match r with
    | Some e => (self, Some e)
    | None =>
    let '(g, it, r) := set_param_vals_group (_xl_unit_cell_parameterisations self) it in
    let self := with_xl_unit_cell_parameterisations self g in
    (self, r)
    end end end.

(** [prepare()]: the quantities that do not depend on the reflection. *)
Definition prepare (self : t) : result Geometry :=
  match _detector self with
  | [] => Raise IndexError
  | panel :: _ =>
      Ok {| _D := get_D_matrix panel;
            _s0 := get_s0 (_beam self);
            _U := get_U (_crystal self);
            _B := get_B (_crystal self);
            _axis := get_rotation_axis (_gonio self) |}
  end.

End Aggregate.

Arguments t : clear implicits.

End PredictionParameterisation.

(* ================================================================= *)
(** ** The compiled helper routines ([dials_refinement_helpers_ext]) *)

Module dials_refinement_helpers_ext.

(** Modelled from the spec: the compiled routine [detector_pv_derivative]
    is not part of the Python source.  Spec 4.4: for each free parameter
    of the first Detector model, with raw derivative dD/dp, the pv
    contribution is [- D . dD/dp . pv]. *)
Definition detector_pv_derivative (D : mat3) (dd_ddet_p : list mat3) (pv : vec3)
  : list vec3 :=
  map (fun dd => mat_vec (mat_mul (mat_neg D) dd) pv) dd_ddet_p.

(** Modelled from the spec: the compiled routine [beam_phi_derivative]
    is not part of the Python source.  Spec 4.5:
    [dphi/dp = - (r . ds0/dp) / e_r_s0]. *)
Definition beam_phi_derivative (r : vec3) (ds0_dsrc_p : list vec3) (e_r_s0 : Q)
  : list Q :=
  map (fun ds0 => (- dot r ds0 / e_r_s0)%Q) ds0_dsrc_p.

(** Modelled from the spec: the compiled routine [beam_pv_derivative]
    is not part of the Python source.  Spec 4.5:
    [dpv/dp = D . (e_X_r . dphi/dp + ds0/dp)]. *)
Definition beam_pv_derivative (D : mat3) (e_X_r : vec3) (dphi_dsrc_p : list Q)
  (ds0_dsrc_p : list vec3) : list vec3 :=
  map (fun pd => mat_vec D (vadd (vscale e_X_r (fst pd)) (snd pd)))
      (combine dphi_dsrc_p ds0_dsrc_p).

(** A Miller index as the compiled routines receive it: three integers. *)
Definition miller_index : Type := (Z * Z * Z)%type.

Definition miller_as_vec3 (h2 : miller_index) : vec3 :=
  let '(h, k, l) := h2 in col (inject_Z h) (inject_Z k) (inject_Z l).

(** Modelled from the spec: the compiled routine
    [crystal_orientation_r_derivative] is not part of the Python source.
    Spec 4.6: [dr/dp = R . dU/dp . B . h]. *)
Definition crystal_orientation_r_derivative (R : mat3) (dU_dxlo_p : list mat3)
  (B : mat3) (h2 : miller_index) : list vec3 :=
  map (fun dU => mat_vec (mat_mul (mat_mul R dU) B) (miller_as_vec3 h2)) dU_dxlo_p.

(** Modelled from the spec: the compiled routine
    [crystal_orientation_phi_derivative] is not part of the Python
    source.  Spec 4.6: [dphi/dp = - (dr/dp . s) / e_r_s0]. *)
Definition crystal_orientation_phi_derivative (dr_dxlo_p : list vec3) (s : vec3)
  (e_r_s0 : Q) : list Q :=
  map (fun dr => (- dot dr s / e_r_s0)%Q) dr_dxlo_p.

(** Modelled from the spec: the compiled routine
    [crystal_orientation_pv_derivative] is not part of the Python source.
    Spec 4.6: [dpv/dp = D . (dr/dp + e_X_r . dphi/dp)]. *)
Definition crystal_orientation_pv_derivative (D : mat3) (dr_dxlo_p : list vec3)
  (e_X_r : vec3) (dphi_dxlo_p : list Q) : list vec3 :=
  map (fun rd => mat_vec D (vadd (fst rd) (vscale e_X_r (snd rd))))
      (combine dr_dxlo_p dphi_dxlo_p).

(** Modelled from the spec: the compiled routine
    [crystal_cell_r_derivative] is not part of the Python source.
    Spec 4.7: [dr/dp = R . U . dB/dp . h]. *)
Definition crystal_cell_r_derivative (R U : mat3) (dB_dxluc_p : list mat3)
  (h2 : miller_index) : list vec3 :=
  map (fun dB => mat_vec (mat_mul (mat_mul R U) dB) (miller_as_vec3 h2)) dB_dxluc_p.

(** Modelled from the spec: the compiled routine
    [crystal_cell_phi_derivative] is not part of the Python source.
    Spec 4.7: the formula of 4.6. *)
Definition crystal_cell_phi_derivative (dr_dxluc_p : list vec3) (s : vec3)
  (e_r_s0 : Q) : list Q :=
  map (fun dr => (- dot dr s / e_r_s0)%Q) dr_dxluc_p.

(** Modelled from the spec: the compiled routine
    [crystal_cell_pv_derivative] is not part of the Python source.
    Spec 4.7: the formula of 4.6. *)
Definition crystal_cell_pv_derivative (D : mat3) (dr_dxluc_p : list vec3)
  (e_X_r : vec3) (dphi_dxluc_p : list Q) : list vec3 :=
  map (fun rd => mat_vec D (vadd (fst rd) (vscale e_X_r (snd rd))))
      (combine dr_dxluc_p dphi_dxluc_p).

End dials_refinement_helpers_ext.

(* ================================================================= *)
(** ** class DetectorSpacePredictionParameterisation *)

Module DetectorSpacePredictionParameterisation.

Import dials_refinement_helpers_ext.

Section DetectorSpace.

Context {DetP BeamP XloP XlucP : Type}.
Context {det_model : Model.Parameterisation DetP mat3}.
Context {beam_model : Model.Parameterisation BeamP vec3}.
Context {xlo_model : Model.Parameterisation XloP mat3}.
Context {xluc_model : Model.Parameterisation XlucP mat3}.
Context {scitbx : MatrixLib}.

Abbreviation self_t := (PredictionParameterisation.t DetP BeamP XloP XlucP).

(** The two lists [dpv_dp] and [dphi_dp] that every helper extends. *)
Definition accumulators : Type := (list vec3 * list Q)%type.

(** The four helper methods, which the subclass overrides. *)
Record methods : Type := {
  _detector_derivatives :
    self_t -> Geometry -> accumulators -> vec3 -> result accumulators;
  _beam_derivatives :
    self_t -> Geometry -> accumulators -> vec3 -> vec3 -> Q -> result accumulators;
  _xl_orientation_derivatives :
    self_t -> Geometry -> accumulators -> mat3 -> vec3 -> vec3 -> vec3 -> Q
    -> result accumulators;
  _xl_unit_cell_derivatives :
    self_t -> Geometry -> accumulators -> mat3 -> vec3 -> vec3 -> vec3 -> Q
    -> result accumulators
}.

(** The quotient rule: positional derivatives from d[pv]/dp. *)
Definition _calc_dX_dp_and_dY_dp_from_dpv_dp (pv der : vec3) : result (Q * Q) :=
  let u := vx pv in
  let v := vy pv in
  let w := vz pv in
  let w2 := (w ^ 2)%Q in
  let du_dp := vx der in
  let dv_dp := vy der in
  let dw_dp := vz der in
  (a <- py_div du_dp w ;;
   b <- py_div (u * dw_dp)%Q w2 ;;
   let dX_dp := (a - b)%Q in
   c <- py_div dv_dp w ;;
   d <- py_div (v * dw_dp)%Q w2 ;;
   let dY_dp := (c - d)%Q in
   Ok (dX_dp, dY_dp))%py.

(** [dX_dp, dY_dp = zip( *pos_grad )]: unpacking fails on an empty list. *)
Definition unzip_pairs (pos_grad : list (Q * Q)) : result (list Q * list Q) :=
  match pos_grad with
  | [] => Raise ValueError
  | _ => Ok (map fst pos_grad, map snd pos_grad)
  end.

(** [zip(a, b, c)]: as long as the shortest argument. *)
Fixpoint zip3 (a b c : list Q) : list (Q * Q * Q) :=
  match a, b, c with
  | x :: a', y :: b', z :: c' => (x, y, z) :: zip3 a' b' c'
  | _, _, _ => []
  end.

(** The tolerance of the test on [(e X r).s0]. *)
Definition tolerance : Q := 1 # 1000000.

(** What the except block prints before it forms the angle with the
    equatorial plane normal. *)
Definition diagnostics (self : self_t) (g : Geometry) (h s r : vec3) (e_r_s0 : Q)
  : list line :=
  [ [Str "(e X r).s0 too small:"; Num e_r_s0];
    [Str "for reflection"; Vec h];
    [Str "with scattering vector"; Vec s];
    [Str "where r ="; Vec r];
    [Str "e ="; Vec (get_rotation_axis (PredictionParameterisation._gonio self))];
    [Str "s0 ="; Vec (_s0 g)];
    [Str "U ="; Mat (_U g)];
    [Str "this reflection forms angle with the equatorial plane normal:"] ].

(** [vecn = self._s0.cross(self._axis).normalize()], then
    [s.accute_angle(vecn)]. *)
Definition equatorial_angle (g : Geometry) (s : vec3) : result (option Q) :=
  (vecn <- normalize (cross (_s0 g) (_axis g)) ;;
   accute_angle s vecn)%py.

Definition _get_gradients_core (cls : methods) (self : self_t) (g : Geometry)
  (h s : vec3) (phi : Q) : list line * result (list (Q * Q * Q)) :=
  let R := axis_and_angle_as_r3_rotation_matrix (_axis g) phi in
  let pv := mat_vec (_D g) s in
  let r := mat_vec (mat_mul (mat_mul R (_U g)) (_B g)) h in
  let e_X_r := cross (_axis g) r in
  let e_r_s0 := dot e_X_r (_s0 g) in
  if negb (Qgtb (Qabs e_r_s0) tolerance) then
    (* the assertion failed: print, then re-raise; an exception raised
       while printing takes the place of the assertion's *)
    let out := diagnostics self g h s r e_r_s0 in
    match equatorial_angle g s with
    | Raise e' => (out, Raise e')
    | Ok angle => (out ++ [[Angle angle]], Raise AssertionError)
    end
  else
    ([],
     (let acc : accumulators := ([], []) in
      acc <- (if truthy (PredictionParameterisation._detector_parameterisations self)
              then _detector_derivatives cls self g acc pv else Ok acc) ;;
      acc <- (if truthy (PredictionParameterisation._beam_parameterisations self)
              then _beam_derivatives cls self g acc r e_X_r e_r_s0 else Ok acc) ;;
      acc <- (if truthy (PredictionParameterisation._xl_orientation_parameterisations self)
              then _xl_orientation_derivatives cls self g acc R h s e_X_r e_r_s0
              else Ok acc) ;;
      acc <- (if truthy (PredictionParameterisation._xl_unit_cell_parameterisations self)
              then _xl_unit_cell_derivatives cls self g acc R h s e_X_r e_r_s0
              else Ok acc) ;;
      let '(dpv_dp, dphi_dp) := acc in
      pos_grad <- comprehension (_calc_dX_dp_and_dY_dp_from_dpv_dp pv) dpv_dp ;;
      dXdY <- unzip_pairs pos_grad ;;
      Ok (zip3 (fst dXdY) (snd dXdY) dphi_dp))%py).

(** [get_gradients]: [prepare()], then the core. *)
Definition get_gradients (cls : methods) (self : self_t) (h s : vec3) (phi : Q)
  : list line * result (list (Q * Q * Q)) :=
  match PredictionParameterisation.prepare self with
  | Raise e => ([], Raise e)
  | Ok g => _get_gradients_core cls self g h s phi
  end.

(** [get_multi_gradients]: [prepare()] once, then the core for every
    reflection (h, s, phi) of the list, stopping at the first exception. *)
Fixpoint multi_core (cls : methods) (self : self_t) (g : Geometry)
  (match_list : list (vec3 * vec3 * Q))
  : list line * result (list (list (Q * Q * Q))) :=
  match match_list with
  | [] => ([], Ok [])
  | (h, s, phi) :: rest =>
      match _get_gradients_core cls self g h s phi with
      | (out, Raise e) => (out, Raise e)
      | (out, Ok row) =>
          match multi_core cls self g rest with
          | (out', Raise e) => (out ++ out', Raise e)
          | (out', Ok rows) => (out ++ out', Ok (row :: rows))
          end
      end
  end.

Definition get_multi_gradients (cls : methods) (self : self_t)
  (match_list : list (vec3 * vec3 * Q))
  : list line * result (list (list (Q * Q * Q))) :=
  match PredictionParameterisation.prepare self with
  | Raise e => ([], Raise e)
  | Ok g => multi_core cls self g match_list
  end.

(** The loop-local variable [dd_ddet_p] is unbound until the iteration
    with [idet == 0] assigns it. *)
Definition detector_loop_state : Type :=
  (option (list mat3) * accumulators)%type.

Definition detector_body (g : Geometry) (pv : vec3) (idet_det : nat * DetP)
  (st : detector_loop_state) : result (flow detector_loop_state) :=
  let '(idet, det) := idet_det in
  let '(dd_bound, (dpv_dp, dphi_dp)) := st in
  (dd_dpv <-
     (if idet =? 0 then
        let dd_ddet_p := Model.get_ds_dp det in
        (* copied to a flex array of 3*3 matrices, element by element *)
        let dd_ddet_p := map (fun dd => dd) dd_ddet_p in
        Ok (dd_ddet_p, detector_pv_derivative (_D g) dd_ddet_p pv)
      else
        match dd_bound with
        | None => Raise UnboundLocalError
        | Some dd_ddet_p => Ok (dd_ddet_p, repeat vzero (length dd_ddet_p))
        end) ;;
   let '(dd_ddet_p, dpv_ddet_p) := dd_dpv in
   let dphi_ddet_p := repeat 0%Q (length dd_ddet_p) in
   (* the [return] is the last statement of the loop body *)
   Ok (Return (Some dd_ddet_p, (dpv_dp ++ dpv_ddet_p, dphi_dp ++ dphi_ddet_p))))%py.

Definition detector_derivatives (self : self_t) (g : Geometry)
  (acc : accumulators) (pv : vec3) : result accumulators :=
  (st <- for_each (detector_body g pv)
           (enumerate (members (PredictionParameterisation._detector_parameterisations self)))
           (None, acc) ;;
   Ok (snd st))%py.

Definition beam_body (g : Geometry) (r e_X_r : vec3) (e_r_s0 : Q) (src : BeamP)
  (acc : accumulators) : result (flow accumulators) :=
  let '(dpv_dp, dphi_dp) := acc in
  let ds0_dsrc_p := Model.get_ds_dp src in
  let dphi_dsrc_p := beam_phi_derivative r ds0_dsrc_p e_r_s0 in
  let dpv_dsrc_p := beam_pv_derivative (_D g) e_X_r dphi_dsrc_p ds0_dsrc_p in
  (* the [return] is the last statement of the loop body *)
  Ok (Return (dpv_dp ++ dpv_dsrc_p, dphi_dp ++ dphi_dsrc_p)).

Definition beam_derivatives (self : self_t) (g : Geometry)
  (acc : accumulators) (r e_X_r : vec3) (e_r_s0 : Q) : result accumulators :=
  for_each (beam_body g r e_X_r e_r_s0)
    (members (PredictionParameterisation._beam_parameterisations self)) acc.

Definition xl_orientation_body (g : Geometry) (R : mat3) (h s e_X_r : vec3)
  (e_r_s0 : Q) (xlo : XloP) (acc : accumulators) : result (flow accumulators) :=
  let '(dpv_dp, dphi_dp) := acc in
  let dU_dxlo_p := Model.get_ds_dp xlo in
  let h2 := (py_int (vx h), py_int (vy h), py_int (vz h)) in
  let dr_dxlo_p := crystal_orientation_r_derivative R dU_dxlo_p (_B g) h2 in
  let dphi_dxlo_p := crystal_orientation_phi_derivative dr_dxlo_p s e_r_s0 in
  let dpv_dxlo_p := crystal_orientation_pv_derivative (_D g) dr_dxlo_p e_X_r dphi_dxlo_p in
  Ok (Continue (dpv_dp ++ dpv_dxlo_p, dphi_dp ++ dphi_dxlo_p)).

Definition xl_orientation_derivatives (self : self_t) (g : Geometry)
  (acc : accumulators) (R : mat3) (h s e_X_r : vec3) (e_r_s0 : Q)
  : result accumulators :=
  for_each (xl_orientation_body g R h s e_X_r e_r_s0)
    (members (PredictionParameterisation._xl_orientation_parameterisations self)) acc.

Definition xl_unit_cell_body (g : Geometry) (R : mat3) (h s e_X_r : vec3)
  (e_r_s0 : Q) (xluc : XlucP) (acc : accumulators) : result (flow accumulators) :=
  let '(dpv_dp, dphi_dp) := acc in
  let dB_dxluc_p := Model.get_ds_dp xluc in
  let h2 := (py_int (vx h), py_int (vy h), py_int (vz h)) in
  let dr_dxluc_p := crystal_cell_r_derivative R (_U g) dB_dxluc_p h2 in
  let dphi_dxluc_p := crystal_cell_phi_derivative dr_dxluc_p s e_r_s0 in
  let dpv_dxluc_p := crystal_cell_pv_derivative (_D g) dr_dxluc_p e_X_r dphi_dxluc_p in
  Ok (Continue (dpv_dp ++ dpv_dxluc_p, dphi_dp ++ dphi_dxluc_p)).

Definition xl_unit_cell_derivatives (self : self_t) (g : Geometry)
  (acc : accumulators) (R : mat3) (h s e_X_r : vec3) (e_r_s0 : Q)
  : result accumulators :=
  for_each (xl_unit_cell_body g R h s e_X_r e_r_s0)
    (members (PredictionParameterisation._xl_unit_cell_parameterisations self)) acc.

(** The class itself: the core with its own four helpers. *)
Definition cls : methods :=
  {| _detector_derivatives := detector_derivatives;
     _beam_derivatives := beam_derivatives;
     _xl_orientation_derivatives := xl_orientation_derivatives;
     _xl_unit_cell_derivatives := xl_unit_cell_derivatives |}.

End DetectorSpace.

End DetectorSpacePredictionParameterisation.

(* ================================================================= *)
(** ** class DetectorSpacePredictionParameterisation_py *)

Module DetectorSpacePredictionParameterisation_py.

Import DetectorSpacePredictionParameterisation.

Section DetectorSpacePy.

Context {DetP BeamP XloP XlucP : Type}.
Context {det_model : Model.Parameterisation DetP mat3}.
Context {beam_model : Model.Parameterisation BeamP vec3}.
Context {xlo_model : Model.Parameterisation XloP mat3}.
Context {xluc_model : Model.Parameterisation XlucP mat3}.
Context {scitbx : MatrixLib}.

Abbreviation self_t := (PredictionParameterisation.t DetP BeamP XloP XlucP).

Definition detector_body (g : Geometry) (pv : vec3) (idet_det : nat * DetP)
  (st : detector_loop_state) : result (flow detector_loop_state) :=
  let '(idet, det) := idet_det in
  let '(dd_bound, (dpv_dp, dphi_dp)) := st in
  (dd_dpv <-
     (if idet =? 0 then
        let dd_ddet_p := Model.get_ds_dp det in
        Ok (dd_ddet_p,
            map (fun dd => mat_vec (mat_mul (mat_neg (_D g)) dd) pv) dd_ddet_p)
      else
        match dd_bound with
        | None => Raise UnboundLocalError
        | Some dd_ddet_p => Ok (dd_ddet_p, repeat vzero (length dd_ddet_p))
        end) ;;
   let '(dd_ddet_p, dpv_ddet_p) := dd_dpv in
   let dphi_ddet_p := repeat 0%Q (length dd_ddet_p) in
   (* here the [return] follows the loop *)
   Ok (Continue (Some dd_ddet_p, (dpv_dp ++ dpv_ddet_p, dphi_dp ++ dphi_ddet_p))))%py.

Definition detector_derivatives (self : self_t) (g : Geometry)
  (acc : accumulators) (pv : vec3) : result accumulators :=
  (st <- for_each (detector_body g pv)
           (enumerate (members (PredictionParameterisation._detector_parameterisations self)))
           (None, acc) ;;
   Ok (snd st))%py.

Definition beam_body (g : Geometry) (r e_X_r : vec3) (e_r_s0 : Q) (src : BeamP)
  (acc : accumulators) : result (flow accumulators) :=
  let '(dpv_dp, dphi_dp) := acc in
  let ds0_dsrc_p := Model.get_ds_dp src in
  (dphi_dsrc_p <-
     comprehension (fun ds0 => py_div (- dot r ds0)%Q e_r_s0) ds0_dsrc_p ;;
   (* indexed by range(len(ds0_dsrc_p)); both lists have that length *)
   let dpv_dsrc_p :=
     map (fun pd => mat_vec (_D g) (vadd (vscale e_X_r (fst pd)) (snd pd)))
         (combine dphi_dsrc_p ds0_dsrc_p) in
   (* the [return] is the last statement of the loop body *)
   Ok (Return (dpv_dp ++ dpv_dsrc_p, dphi_dp ++ dphi_dsrc_p)))%py.

Definition beam_derivatives (self : self_t) (g : Geometry)
  (acc : accumulators) (r e_X_r : vec3) (e_r_s0 : Q) : result accumulators :=
  for_each (beam_body g r e_X_r e_r_s0)
    (members (PredictionParameterisation._beam_parameterisations self)) acc.

(** The part shared by the two crystal helpers once [dr/dp] is known. *)
Definition crystal_tail (g : Geometry) (s e_X_r : vec3) (e_r_s0 : Q)
  (dr_dp : list vec3) (acc : accumulators) : result (flow accumulators) :=
  let '(dpv_dp, dphi_dp) := acc in
  (dphi_dx_p <- comprehension (fun der => py_div (- dot der s)%Q e_r_s0) dr_dp ;;
   (* indexed by the common length of the two lists *)
   let dpv_dx_p :=
     map (fun rd => mat_vec (_D g) (vadd (fst rd) (vscale e_X_r (snd rd))))
         (combine dr_dp dphi_dx_p) in
   Ok (Continue (dpv_dp ++ dpv_dx_p, dphi_dp ++ dphi_dx_p)))%py.

Definition xl_orientation_body (g : Geometry) (R : mat3) (h s e_X_r : vec3)
  (e_r_s0 : Q) (xlo : XloP) (acc : accumulators) : result (flow accumulators) :=
  let dU_dxlo_p := Model.get_ds_dp xlo in
  let dr_dxlo_p :=
    map (fun dU => mat_vec (mat_mul (mat_mul R dU) (_B g)) h) dU_dxlo_p in
  crystal_tail g s e_X_r e_r_s0 dr_dxlo_p acc.

Definition xl_orientation_derivatives (self : self_t) (g : Geometry)
  (acc : accumulators) (R : mat3) (h s e_X_r : vec3) (e_r_s0 : Q)
  : result accumulators :=
  for_each (xl_orientation_body g R h s e_X_r e_r_s0)
    (members (PredictionParameterisation._xl_orientation_parameterisations self)) acc.

Definition xl_unit_cell_body (g : Geometry) (R : mat3) (h s e_X_r : vec3)
  (e_r_s0 : Q) (xluc : XlucP) (acc : accumulators) : result (flow accumulators) :=
  let dB_dxluc_p := Model.get_ds_dp xluc in
  let dr_dxluc_p :=
    map (fun dB => mat_vec (mat_mul (mat_mul R (_U g)) dB) h) dB_dxluc_p in
  crystal_tail g s e_X_r e_r_s0 dr_dxluc_p acc.

Definition xl_unit_cell_derivatives (self : self_t) (g : Geometry)
  (acc : accumulators) (R : mat3) (h s e_X_r : vec3) (e_r_s0 : Q)
  : result accumulators :=
  for_each (xl_unit_cell_body g R h s e_X_r e_r_s0)
    (members (PredictionParameterisation._xl_unit_cell_parameterisations self)) acc.

(** The subclass: the inherited core with the four overriding helpers. *)
Definition cls : methods :=
  {| _detector_derivatives := detector_derivatives;
     _beam_derivatives := beam_derivatives;
     _xl_orientation_derivatives := xl_orientation_derivatives;
     _xl_unit_cell_derivatives := xl_unit_cell_derivatives |}.

End DetectorSpacePy.

End DetectorSpacePredictionParameterisation_py.

(* ================================================================= *)
(** ** The aggregate as the specification words it *)

Module AggregateSpec.

Import PredictionParameterisation.

Section Spec.

Context {DetP BeamP XloP XlucP : Type}.
Context {det_model : Model.Parameterisation DetP mat3}.
Context {beam_model : Model.Parameterisation BeamP vec3}.
Context {xlo_model : Model.Parameterisation XloP mat3}.
Context {xluc_model : Model.Parameterisation XlucP mat3}.

Abbreviation self_t := (PredictionParameterisation.t DetP BeamP XloP XlucP).

(** The free parameters of the models of one group. *)
Definition free_of {M T : Type} {P : Model.Parameterisation M T} (models : list M)
  : nat :=
  list_sum (map Model.num_free models).

(** [total_free_parameters()]: the sum of [num_free()] over every model
    in every group. *)
Definition total_free_parameters (self : self_t) : nat :=
  free_of (members (_detector_parameterisations self))
  + free_of (members (_beam_parameterisations self))
  + free_of (members (_xl_orientation_parameterisations self))
  + free_of (members (_xl_unit_cell_parameterisations self)).

(** Every model of a group, in list order, is handed the slice of
    [values] that starts where the previous model's slice ended and has
    [num_free()] entries; a failing setter ends the hand-out. *)
Fixpoint hand_slices {M T : Type} {P : Model.Parameterisation M T}
  (models : list M) (offset : nat) (values : list Q) : list M * option exn :=
  match models with
  | [] => ([], None)
  | model :: rest =>
      let slice := firstn (Model.num_free model) (skipn offset values) in
      match Model.set_param_vals model slice with
      | (model', Some e) => (model' :: rest, Some e)
      | (model', None) =>
          let '(rest', r) := hand_slices rest (offset + Model.num_free model) values in
          (model' :: rest', r)
      end
  end.

(** A group keeps its shape: an absent group stays absent. *)
Definition regroup {M : Type} (g : group M) (models : list M) : group M :=
  match g with
  | None => None
  | Some _ => Some models
  end.

(** [set_param_vals(values)]: a length-mismatch error unless
    [len(values) == total_free_parameters()]; otherwise the groups are
    served in the order Detector, Beam, CrystalOrientation,
    CrystalUnitCell, each model receiving its own contiguous slice. *)
Definition set_param_vals_spec (self : self_t) (values : list Q)
  : self_t * option exn :=
  if length values =? total_free_parameters self then
    let dets := _detector_parameterisations self in
    let beams := _beam_parameterisations self in
    let xlos := _xl_orientation_parameterisations self in
    let xlucs := _xl_unit_cell_parameterisations self in
    let o1 := free_of (members dets) in
    let o2 := o1 + free_of (members beams) in
    let o3 := o2 + free_of (members xlos) in
    let '(dets', r) := hand_slices (members dets) 0 values in
    let self := with_detector_parameterisations self (regroup dets dets') in
    match r with
    | Some e => (self, Some e)
    | None =>
    let '(beams', r) := hand_slices (members beams) o1 values in
    let self := with_beam_parameterisations self (regroup beams beams') in
    match r with
    | Some e => (self, Some e)
    | None =>
    let '(xlos', r) := hand_slices (members xlos) o2 values in
    let self := with_xl_orientation_parameterisations self (regroup xlos xlos') in
    match r with
    | Some e => (self, Some e)
    | None =>
    let '(xlucs', r) := hand_slices (members xlucs) o3 values in
    let self := with_xl_unit_cell_parameterisations self (regroup xlucs xlucs') in
    (self, r)
    end end end
  else (self, Some AssertionError).

(** The names of one group: the label, the zero-based index of the model
    within the group and the model's own parameter name, model by model. *)
Fixpoint group_names (label : string) (index : nat)
  (name_lists : list (list string)) : list string :=
  match name_lists with
  | [] => []
  | l :: rest =>
      map (fun x => (label ++ percent_d index ++ x)%string) l
      ++ group_names label (S index) rest
  end.

Definition names_of {M T : Type} {P : Model.Parameterisation M T}
  (label : string) (g : group M) : list string :=
  group_names label 0 (map Model.get_param_names (members g)).

(** The contract of a contained model: its setter rejects a list whose
    length is not [num_free()] ... *)
Definition checks_length {M T : Type} {P : Model.Parameterisation M T} (m : M)
  : Prop :=
  forall vals m', Model.set_param_vals m vals = (m', None) ->
                  length vals = Model.num_free m.

(** ... and setting the values just read changes nothing. *)
Definition round_trips {M T : Type} {P : Model.Parameterisation M T} (m : M)
  : Prop :=
  Model.set_param_vals m (Model.get_param_vals m) = (m, None).

Definition well_behaved {M T : Type} {P : Model.Parameterisation M T}
  (g : group M) : Prop :=
  Forall (fun m => checks_length m /\ round_trips m) (members g).

Definition is_digit (c : ascii) : bool :=
  let n := nat_of_ascii c in (48 <=? n) && (n <=? 57).

Definition starts_with_digit (s : string) : bool :=
  match s with
  | EmptyString => false
  | String c _ => is_digit c
  end.

Fixpoint all_digits (s : string) : bool :=
  match s with
  | EmptyString => true
  | String c s' => is_digit c && all_digits s'
  end.

(** Every model of the group reports one name per free parameter. *)
Definition counted_names {M T : Type} {P : Model.Parameterisation M T}
  (g : group M) : Prop :=
  Forall (fun m => length (Model.get_param_names m) = Model.num_free m) (members g).

(** Every model of the group reports distinct names, none of which
    begins with a decimal digit. *)
Definition tidy_names {M T : Type} {P : Model.Parameterisation M T}
  (g : group M) : Prop :=
  Forall (fun m => NoDup (Model.get_param_names m)
                   /\ Forall (fun x => starts_with_digit x = false)
                             (Model.get_param_names m))
         (members g).

(** No CrystalOrientation model shares a parameter name with the
    CrystalUnitCell model that has the same index. *)
Definition crystal_names_apart (self : self_t) : Prop :=
  forall i mo mu x,
    nth_error (members (_xl_orientation_parameterisations self)) i = Some mo ->
    nth_error (members (_xl_unit_cell_parameterisations self)) i = Some mu ->
    In x (Model.get_param_names mo) ->
    ~ In x (Model.get_param_names mu).

End Spec.

End AggregateSpec.

(* ================================================================= *)
(** ** The quantities of the gradient computation as the specification
       names them *)

Module GradientSpec.

Section Quantities.

Context {scitbx : MatrixLib}.

(** Spec 4.3, step 3: [r = R . U . B . h]. *)
Definition lattice_vector (g : Geometry) (h : vec3) (phi : Q) : vec3 :=
  let R := axis_and_angle_as_r3_rotation_matrix (_axis g) phi in
  mat_vec (mat_mul (mat_mul R (_U g)) (_B g)) h.

(** Spec 4.3, step 4: [e_r_s0 = (e x r) . s0]. *)
Definition e_r_s0_of (g : Geometry) (h : vec3) (phi : Q) : Q :=
  dot (cross (_axis g) (lattice_vector g h phi)) (_s0 g).

(** An exception other than the one of the degenerate-geometry check. *)
Definition not_assertion (e : exn) : Prop := e <> AssertionError.

(** A printed line shows the value [v]. *)
Definition shows (v : printed) (out : list line) : Prop :=
  exists l, In l out /\ In v l.

(** The Miller index as the compiled routines see it: [int()] applied
    to each component. *)
Definition truncated (h : vec3) : vec3 :=
  dials_refinement_helpers_ext.miller_as_vec3
    (py_int (vx h), py_int (vy h), py_int (vz h)).

(** A Miller index has integer components. *)
Definition integral (h : vec3) : Prop := truncated h = h.

(** Spec 4.4: the pv contribution of a Detector parameter with raw
    derivative dD/dp is [- D . dD/dp . pv]. *)
Definition detector_dpv (D : mat3) (pv : vec3) (dD : mat3) : vec3 :=
  mat_vec (mat_mul (mat_neg D) dD) pv.

(** Spec 4.5: [dphi/dp = - (r . ds0/dp) / e_r_s0] and
    [dpv/dp = D . (e_X_r . dphi/dp + ds0/dp)]. *)
Definition beam_dphi (r : vec3) (e_r_s0 : Q) (ds0 : vec3) : Q :=
  (- dot r ds0 / e_r_s0)%Q.

Definition beam_dpv (D : mat3) (r e_X_r : vec3) (e_r_s0 : Q) (ds0 : vec3) : vec3 :=
  mat_vec D (vadd (vscale e_X_r (beam_dphi r e_r_s0 ds0)) ds0).

(** Spec 4.6 and 4.7: [dr/dp = R . dU/dp . B . h] or [R . U . dB/dp . h],
    [dphi/dp = - (dr/dp . s) / e_r_s0] and
    [dpv/dp = D . (dr/dp + e_X_r . dphi/dp)]. *)
Definition orientation_dr (R B : mat3) (h : vec3) (dU : mat3) : vec3 :=
  mat_vec (mat_mul (mat_mul R dU) B) h.

Definition cell_dr (R U : mat3) (h : vec3) (dB : mat3) : vec3 :=
  mat_vec (mat_mul (mat_mul R U) dB) h.

Definition crystal_dphi (s : vec3) (e_r_s0 : Q) (dr : vec3) : Q :=
  (- dot dr s / e_r_s0)%Q.

Definition crystal_dpv (D : mat3) (s e_X_r : vec3) (e_r_s0 : Q) (dr : vec3) : vec3 :=
  mat_vec D (vadd dr (vscale e_X_r (crystal_dphi s e_r_s0 dr))).

End Quantities.

Section Counts.

Context {M T : Type} {P : Model.Parameterisation M T}.

(** The raw derivatives of the first model of a group. *)
Definition first_entries (g : group M) : nat :=
  match members g with
  | [] => 0
  | m :: _ => length (Model.get_ds_dp m)
  end.

(** The raw derivatives of all models of a group. *)
Definition all_entries (g : group M) : nat :=
  list_sum (map (fun m => length (Model.get_ds_dp m)) (members g)).

(** Every model of the group has one raw derivative per free parameter. *)
Definition counted_derivatives (g : group M) : Prop :=
  Forall (fun m => length (Model.get_ds_dp m) = Model.num_free m) (members g).

End Counts.

Section RowLength.

Context {DetP BeamP XloP XlucP : Type}.
Context {det_model : Model.Parameterisation DetP mat3}.
Context {beam_model : Model.Parameterisation BeamP vec3}.
Context {xlo_model : Model.Parameterisation XloP mat3}.
Context {xluc_model : Model.Parameterisation XlucP mat3}.

Abbreviation self_t := (PredictionParameterisation.t DetP BeamP XloP XlucP).

(** The number of triples in a row of the class with the compiled
    helpers: the first Detector model, the first Beam model and every
    crystal model contribute. *)
Definition row_length (self : self_t) : nat :=
  first_entries (PredictionParameterisation._detector_parameterisations self)
  + first_entries (PredictionParameterisation._beam_parameterisations self)
  + all_entries (PredictionParameterisation._xl_orientation_parameterisations self)
  + all_entries (PredictionParameterisation._xl_unit_cell_parameterisations self).

(** The number of triples in a row of the pure-Python class: every
    Detector model contributes as many entries as the first one has. *)
Definition row_length_py (self : self_t) : nat :=
  length (members (PredictionParameterisation._detector_parameterisations self))
  * first_entries (PredictionParameterisation._detector_parameterisations self)
  + first_entries (PredictionParameterisation._beam_parameterisations self)
  + all_entries (PredictionParameterisation._xl_orientation_parameterisations self)
  + all_entries (PredictionParameterisation._xl_unit_cell_parameterisations self).

End RowLength.

End GradientSpec.

(* ================================================================= *)
(** ** Concrete models and reflections used in the examples *)

Module Fixture.

(** A parameterisation all of whose parameters are free; its setter
    asserts the length of its argument, as the contained models do. *)
Record simple_model (T : Type) : Type := {
  sm_vals : list Q;
  sm_names : list string;
  sm_ds_dp : list T
}.

Definition simple_set {T : Type} (m : simple_model T) (vals : list Q)
  : simple_model T * option exn :=
  if length vals =? length (sm_vals m) then
    ({| sm_vals := vals; sm_names := sm_names m; sm_ds_dp := sm_ds_dp m |}, None)
  else (m, Some AssertionError).

#[global] Instance simple_parameterisation (T : Type)
  : Model.Parameterisation (simple_model T) T :=
  {| Model.num_free := fun m => length (sm_vals m);
     Model.get_param_vals := @sm_vals T;
     Model.get_param_names := @sm_names T;
     Model.set_param_vals := simple_set;
     Model.get_ds_dp := @sm_ds_dp T |}.

(** A stand-in for [scitbx.matrix] that is exact where the examples use
    it: a rotation by the angle zero is the identity, and the zero vector
    cannot be normalised. *)
#[global] Instance zero_angle_lib : MatrixLib :=
  {| axis_and_angle_as_r3_rotation_matrix := fun _ _ => identity;
     normalize := fun v => if Qeq_bool (dot v v) 0 then Raise ZeroDivisionError else Ok v;
     accute_angle := fun _ _ => Ok None |}.

Abbreviation object :=
  (PredictionParameterisation.t (simple_model mat3) (simple_model vec3)
                                (simple_model mat3) (simple_model mat3)).

(** One panel with D = 1, beam along z, U = B = 1, rotation about x. *)
Definition build (dets : group (simple_model mat3)) (beams : group (simple_model vec3))
  (xlos xlucs : group (simple_model mat3)) : object :=
  PredictionParameterisation.__init__
    [ {| get_D_matrix := identity |} ]
    {| get_s0 := col 0 0 1 |}
    {| get_U := identity; get_B := identity |}
    {| get_rotation_axis := col 1 0 0 |}
    dets beams xlos xlucs.

Definition one_beam_parameter (name : string) : simple_model vec3 :=
  {| sm_vals := [0%Q]; sm_names := [name]; sm_ds_dp := [col 1 0 0] |}.

(** A raw derivative that moves the first component of a vector by its
    third. *)
Definition shear : mat3 := sqr (col 0 0 1) (col 0 0 0) (col 0 0 0).

Definition one_matrix_parameter (name : string) : simple_model mat3 :=
  {| sm_vals := [0%Q]; sm_names := [name]; sm_ds_dp := [shear] |}.

Definition two_matrix_parameters (n1 n2 : string) : simple_model mat3 :=
  {| sm_vals := [0%Q; 0%Q]; sm_names := [n1; n2]; sm_ds_dp := [shear; identity] |}.

(** Two Beam models with one free parameter each. *)
Definition two_beams : object :=
  build None (Some [one_beam_parameter "Mu1"; one_beam_parameter "Mu2"]) None None.

(** Two Detector models with one free parameter each. *)
Definition two_detectors : object :=
  build (Some [one_matrix_parameter "Dist"; one_matrix_parameter "Shift"]) None None None.

(** A Detector model with one free parameter, then one with two. *)
Definition uneven_detectors : object :=
  build (Some [one_matrix_parameter "Dist"; two_matrix_parameters "Tau1" "Tau2"])
        None None None.

(** One model in each crystal group; both call their parameter "a". *)
Definition same_crystal_names : object :=
  build None None (Some [one_matrix_parameter "a"]) (Some [one_matrix_parameter "a"]).

(** One model in every group, with the names of a typical refinement. *)
Definition one_of_each : object :=
  build (Some [two_matrix_parameters "Dist" "Tau"])
        (Some [one_beam_parameter "Mu"])
        (Some [two_matrix_parameters "Phi1" "Phi2"])
        (Some [one_matrix_parameter "g_param_0"]).

Definition geometry : Geometry :=
  {| _D := identity; _s0 := col 0 0 1; _U := identity; _B := identity;
     _axis := col 1 0 0 |}.

(** A reflection in general position: (e X r).s0 = 1. *)
Definition h_ok : vec3 := col 0 1 0.
(** A reflection on the rotation axis: (e X r).s0 = 0. *)
Definition h_degenerate : vec3 := col 1 0 0.
Definition s_ok : vec3 := col 0 0 1.

End Fixture.

(* ================================================================= *)
(** ** Contracts of the contained models and the row of the pure-Python
       class in closed form *)

Module CoverageSpec.

Import PredictionParameterisation GradientSpec.

Section Contracts.

Context {M T : Type} {P : Model.Parameterisation M T}.

(** Every model of the group reports one value per free parameter. *)
Definition counted_values (g : group M) : Prop :=
  Forall (fun m => length (Model.get_param_vals m) = Model.num_free m) (members g).

(** Every model of the group reports as many names as values. *)
Definition labelled_values (g : group M) : Prop :=
  Forall (fun m => length (Model.get_param_names m)
                   = length (Model.get_param_vals m)) (members g).

(** Every model of the group accepts a list of [num_free()] values. *)
Definition accepts (g : group M) : Prop :=
  Forall (fun m => forall vals, length vals = Model.num_free m ->
                     snd (Model.set_param_vals m vals) = None) (members g).

(** Every model of the group accepts a list of [num_free()] values and
    reports these values afterwards. *)
Definition stores (g : group M) : Prop :=
  Forall (fun m => forall vals, length vals = Model.num_free m ->
                     snd (Model.set_param_vals m vals) = None
                     /\ Model.get_param_vals (fst (Model.set_param_vals m vals)) = vals)
         (members g).

(** No call of a setter changes the number of free parameters. *)
Definition keeps_num_free : Prop :=
  forall (m : M) (vals : list Q),
    Model.num_free (fst (Model.set_param_vals m vals)) = Model.num_free m.

End Contracts.

Arguments keeps_num_free M {T P}.

Section PyRow.

Context {DetP BeamP XloP XlucP : Type}.
Context {det_model : Model.Parameterisation DetP mat3}.
Context {beam_model : Model.Parameterisation BeamP vec3}.
Context {xlo_model : Model.Parameterisation XloP mat3}.
Context {xluc_model : Model.Parameterisation XlucP mat3}.
Context {scitbx : MatrixLib}.

Abbreviation self_t := (PredictionParameterisation.t DetP BeamP XloP XlucP).

(** A pv-derivative and a phi-derivative as a triple of the row. *)
Definition project (pv : vec3) (entry : vec3 * Q) : Q * Q * Q :=
  let d := fst entry in
  ((vx d / vz pv - vx pv * vz d / vz pv ^ 2)%Q,
   (vy d / vz pv - vy pv * vz d / vz pv ^ 2)%Q,
   snd entry).

(** The first Detector model's parameters, then one block of zeros of
    the same size for every later Detector model. *)
Definition detector_entries (g : Geometry) (pv : vec3) (dets : list DetP)
  : list (vec3 * Q) :=
  match dets with
  | [] => []
  | det :: rest =>
      map (fun dD => (detector_dpv (_D g) pv dD, 0%Q)) (Model.get_ds_dp det)
      ++ repeat (vzero, 0%Q) (length rest * length (Model.get_ds_dp det))
  end.

(** The first Beam model's parameters. *)
Definition beam_entries (g : Geometry) (r e_X_r : vec3) (e_r_s0 : Q)
  (beams : list BeamP) : list (vec3 * Q) :=
  match beams with
  | [] => []
  | src :: _ =>
      map (fun ds0 => (beam_dpv (_D g) r e_X_r e_r_s0 ds0, beam_dphi r e_r_s0 ds0))
          (Model.get_ds_dp src)
  end.

(** The parameters of every CrystalOrientation model. *)
Definition orientation_entries (g : Geometry) (R : mat3) (h s e_X_r : vec3)
  (e_r_s0 : Q) (xlos : list XloP) : list (vec3 * Q) :=
  flat_map (fun xlo =>
              map (fun dU => let dr := orientation_dr R (_B g) h dU in
                             (crystal_dpv (_D g) s e_X_r e_r_s0 dr,
                              crystal_dphi s e_r_s0 dr))
                  (Model.get_ds_dp xlo)) xlos.

(** The parameters of every CrystalUnitCell model. *)
Definition cell_entries (g : Geometry) (R : mat3) (h s e_X_r : vec3)
  (e_r_s0 : Q) (xlucs : list XlucP) : list (vec3 * Q) :=
  flat_map (fun xluc =>
              map (fun dB => let dr := cell_dr R (_U g) h dB in
                             (crystal_dpv (_D g) s e_X_r e_r_s0 dr,
                              crystal_dphi s e_r_s0 dr))
                  (Model.get_ds_dp xluc)) xlucs.

(** All (d[pv]/dp, dphi/dp) pairs of a reflection, in the order in which
    the pure-Python class accumulates them. *)
Definition py_entries (self : self_t) (g : Geometry) (h s : vec3) (phi : Q)
  : list (vec3 * Q) :=
  let R := axis_and_angle_as_r3_rotation_matrix (_axis g) phi in
  let pv := mat_vec (_D g) s in
  let r := lattice_vector g h phi in
  let e_X_r := cross (_axis g) r in
  let e_r_s0 := e_r_s0_of g h phi in
  detector_entries g pv (members (_detector_parameterisations self))
  ++ beam_entries g r e_X_r e_r_s0 (members (_beam_parameterisations self))
  ++ orientation_entries g R h s e_X_r e_r_s0
       (members (_xl_orientation_parameterisations self))
  ++ cell_entries g R h s e_X_r e_r_s0
       (members (_xl_unit_cell_parameterisations self)).

End PyRow.

End CoverageSpec.

(* ================================================================= *)
(** * Properties of the parameter aggregate *)

Module AggregateFacts.

Import PredictionParameterisation AggregateSpec.

Section Groups.

Context {M T : Type} {P : Model.Parameterisation M T}.

Lemma free_of_cons (m : M) (ms : list M) :
  free_of (m :: ms) = Model.num_free m + free_of ms.
Proof. reflexivity. Qed.

Lemma fold_left_num_free (models : list M) (a : nat) :
  fold_left (fun length model => length + Model.num_free model) models a
  = a + free_of models.
Proof.
  revert a. induction models as [|m ms IH]; intros a.
  - cbn. lia.
  - cbn [fold_left]. rewrite IH, free_of_cons. lia.
Qed.

Lemma falsy_members (g : group M) : truthy g = false -> members g = [].
Proof. destruct g as [[|m ms]|]; cbn; congruence. Qed.

Lemma truthy_some (g : group M) : truthy g = true -> g = Some (members g).
Proof. destruct g as [[|m ms]|]; cbn; congruence. Qed.

Lemma regroup_members (g : group M) : regroup g (members g) = g.
Proof. destruct g; reflexivity. Qed.

Lemma _len_group_free_of (g : group M) (a : nat) :
  _len_group g a = a + free_of (members g).
Proof.
  unfold _len_group. destruct (truthy g) eqn:E.
  - apply fold_left_num_free.
  - rewrite (falsy_members _ E). cbn. lia.
Qed.

Lemma get_param_vals_group_concat (g : group M) (acc : list Q) :
  get_param_vals_group g acc
  = acc ++ concat (map Model.get_param_vals (members g)).
Proof.
  unfold get_param_vals_group. destruct (truthy g) eqn:E.
  - reflexivity.
  - rewrite (falsy_members _ E). cbn. now rewrite app_nil_r.
Qed.

(** Taking [n] values from an iterator that still holds at least [n]. *)
Lemma next_n_firstn (n : nat) (it : list Q) :
  n <= length it -> next_n n it = Ok (firstn n it, skipn n it).
Proof.
  revert it. induction n as [|n IH]; intros it Hn.
  - reflexivity.
  - destruct it as [|x it]; cbn in Hn; [lia|].
    cbn. rewrite IH by lia. reflexivity.
Qed.

(** The loop over one group's models, started on the iterator at
    position [off], hands out the slices of the specification. *)
Lemma set_param_vals_models_slices (models : list M) (off : nat) (vals : list Q) :
  off + free_of models <= length vals ->
  let '(ms, it, r) := set_param_vals_models models (skipn off vals) in
  ms = fst (hand_slices models off vals)
  /\ r = snd (hand_slices models off vals)
  /\ (r = None -> it = skipn (off + free_of models) vals).
Proof.
  revert off. induction models as [|m ms IH]; intros off Hlen.
  - cbn. rewrite Nat.add_0_r. auto.
  - rewrite free_of_cons in Hlen |- *.
    cbn [set_param_vals_models hand_slices].
    rewrite next_n_firstn by (rewrite length_skipn; lia).
    destruct (Model.set_param_vals m _) as [m' [e|]].
    + cbn. repeat split; congruence.
    + rewrite skipn_skipn.
      specialize (IH (off + Model.num_free m)).
      rewrite (Nat.add_comm (Model.num_free m) off).
      destruct (set_param_vals_models ms _) as [[ms' it'] r'].
      destruct (hand_slices ms _ vals) as [hs hr]. cbn in *.
      destruct IH as (-> & -> & Hit); [lia|].
      repeat split; auto.
      intros Hr. rewrite (Hit Hr). f_equal. lia.
Qed.

Lemma set_param_vals_group_slices (g : group M) (off : nat) (vals : list Q) :
  off + free_of (members g) <= length vals ->
  let '(g', it, r) := set_param_vals_group g (skipn off vals) in
  g' = regroup g (fst (hand_slices (members g) off vals))
  /\ r = snd (hand_slices (members g) off vals)
  /\ (r = None -> it = skipn (off + free_of (members g)) vals).
Proof.
  intros Hlen. unfold set_param_vals_group. destruct (truthy g) eqn:E.
  - pose proof (set_param_vals_models_slices (members g) off vals Hlen) as H.
    destruct (set_param_vals_models _ _) as [[ms it] r].
    destruct H as (-> & -> & Hit). repeat split; auto.
    destruct g as [l|]; [reflexivity | discriminate E].
  - rewrite (falsy_members _ E). cbn. rewrite Nat.add_0_r.
    repeat split. destruct g as [[|]|]; cbn in *; congruence.
Qed.

(** Handing a group the values it reported gives every model its own
    values back. *)
Lemma hand_slices_own_values (models : list M) (pre post : list Q) :
  Forall (fun m => checks_length m /\ round_trips m) models ->
  hand_slices models (length pre)
    (pre ++ concat (map Model.get_param_vals models) ++ post)
  = (models, None).
Proof.
  revert pre. induction models as [|m ms IH]; intros pre Hall.
  - reflexivity.
  - inversion Hall as [|? ? [Hck Hrt] Hrest]; subst.
    assert (Hn : length (Model.get_param_vals m) = Model.num_free m)
      by (eapply Hck; exact Hrt).
    cbn [hand_slices map concat].
    rewrite skipn_app, skipn_all, Nat.sub_diag. cbn [skipn].
    rewrite app_nil_l, <- app_assoc, <- Hn.
    rewrite firstn_app, firstn_all, Nat.sub_diag.
    cbn [firstn]. rewrite app_nil_r, Hrt.
    specialize (IH (pre ++ Model.get_param_vals m) Hrest).
    rewrite length_app, <- ?app_assoc in IH. rewrite <- ?app_assoc.
    rewrite IH. reflexivity.
Qed.

(** What [hand_slices] means, model by model: when no setter fails, the
    model at position [k] is left as its setter leaves it on the slice
    that starts after the free parameters of the models before it. *)
Lemma hand_slices_nth (models : list M) (off : nat) (vals : list Q) (k : nat) (m : M) :
  snd (hand_slices models off vals) = None ->
  nth_error models k = Some m ->
  nth_error (fst (hand_slices models off vals)) k
  = Some (fst (Model.set_param_vals m
                 (firstn (Model.num_free m)
                         (skipn (off + free_of (firstn k models)) vals)))).
Proof.
  revert off k. induction models as [|m0 ms IH]; intros off k Hok Hk.
  - destruct k; discriminate.
  - cbn [hand_slices] in *.
    destruct (Model.set_param_vals m0 _) as [m0' [e|]] eqn:E0; [discriminate|].
    destruct (hand_slices ms (off + Model.num_free m0) vals) as [ms' r] eqn:Er.
    cbn [fst snd] in *. destruct k as [|k]; cbn [nth_error firstn] in *.
    + injection Hk as <-. cbn. rewrite Nat.add_0_r, E0. reflexivity.
    + specialize (IH (off + Model.num_free m0) k). rewrite Er in IH.
      cbn [fst snd] in IH.
      now rewrite (IH Hok Hk), free_of_cons, Nat.add_assoc.
Qed.

(** Within the vector, a slice has exactly [num_free()] values. *)
Lemma slice_length (n off : nat) (vals : list Q) :
  off + n <= length vals -> length (firstn n (skipn off vals)) = n.
Proof. intros H. rewrite length_firstn, length_skipn. lia. Qed.

(** A setter that keeps [num_free()] keeps the free parameters of the
    group, wherever the loop stops. *)
Lemma set_param_vals_models_free_of (models : list M) (it : list Q) :
  (forall m vals, Model.num_free (fst (Model.set_param_vals m vals)) = Model.num_free m) ->
  free_of (fst (fst (set_param_vals_models models it))) = free_of models.
Proof.
  intros Hkeep. revert it. induction models as [|m ms IH]; intros it; [reflexivity|].
  cbn [set_param_vals_models].
  destruct (next_n (Model.num_free m) it) as [[tmp it']|]; [|reflexivity].
  pose proof (Hkeep m tmp) as Hm.
  destruct (Model.set_param_vals m tmp) as [m' [e|]]; cbn [fst] in Hm.
  - cbn [fst]. now rewrite !free_of_cons, Hm.
  - specialize (IH it'). destruct (set_param_vals_models ms it') as [[ms' it''] r].
    cbn [fst] in *. now rewrite !free_of_cons, Hm, IH.
Qed.

Lemma set_param_vals_group_free_of (g : group M) (it : list Q) :
  (forall m vals, Model.num_free (fst (Model.set_param_vals m vals)) = Model.num_free m) ->
  free_of (members (fst (fst (set_param_vals_group g it)))) = free_of (members g).
Proof.
  intros Hkeep. unfold set_param_vals_group. destruct (truthy g); [|reflexivity].
  pose proof (set_param_vals_models_free_of (members g) it Hkeep) as H.
  destruct (set_param_vals_models (members g) it) as [[ms it'] r]. exact H.
Qed.

Lemma well_behaved_length (models : list M) :
  Forall (fun m => checks_length m /\ round_trips m) models ->
  length (concat (map Model.get_param_vals models)) = free_of models.
Proof.
  induction 1 as [|m ms [Hck Hrt] _ IH]; [reflexivity|].
  cbn [map concat]. rewrite length_app, IH, free_of_cons.
  f_equal. eapply Hck; exact Hrt.
Qed.

End Groups.

Section Aggregate.

Context {DetP BeamP XloP XlucP : Type}.
Context {det_model : Model.Parameterisation DetP mat3}.
Context {beam_model : Model.Parameterisation BeamP vec3}.
Context {xlo_model : Model.Parameterisation XloP mat3}.
Context {xluc_model : Model.Parameterisation XlucP mat3}.

Abbreviation self_t := (PredictionParameterisation.t DetP BeamP XloP XlucP).

Lemma _len_total (self : self_t) : _len self = total_free_parameters self.
Proof.
  unfold _len, total_free_parameters. rewrite !_len_group_free_of. lia.
Qed.

(** A freshly constructed object caches its own length. *)
Lemma __init___length dm bm cm gm (dets : group DetP) (beams : group BeamP)
  (xlos : group XloP) (xlucs : group XlucP) :
  let self := __init__ dm bm cm gm dets beams xlos xlucs in
  __len__ self = _len self.
Proof. reflexivity. Qed.

Ltac project_updates :=
  cbn [with_detector_parameterisations with_beam_parameterisations
       with_xl_orientation_parameterisations with_xl_unit_cell_parameterisations
       _detector_parameterisations _beam_parameterisations
       _xl_orientation_parameterisations _xl_unit_cell_parameterisations
       _length __len__].

Ltac serve_group off vals Hlen :=
  match goal with
  | |- context [set_param_vals_group ?g ?it] =>
      let H := fresh "H" in
      let Hit := fresh "Hit" in
      pose proof (set_param_vals_group_slices g off vals) as H;
      cbn [skipn] in H;
      destruct (set_param_vals_group g it) as [[? ?] ?];
      destruct H as (-> & -> & Hit); [lia|];
      destruct (hand_slices (members g) _ vals) as [? [?|]]; cbn [fst snd] in *;
      [reflexivity|];
      try rewrite (Hit eq_refl); project_updates
  end.

(** The iterator-driven setter is the slice-by-slice setter of the
    specification. *)
Lemma set_param_vals_refines (self : self_t) (vals : list Q) :
  __len__ self = _len self ->
  set_param_vals self vals = set_param_vals_spec self vals.
Proof.
  intros Hwf. unfold set_param_vals, set_param_vals_spec.
  rewrite Hwf, _len_total.
  destruct (length vals =? total_free_parameters self) eqn:E; cbn [negb];
    [|reflexivity].
  apply Nat.eqb_eq in E. unfold total_free_parameters in E.
  serve_group 0 vals E. rewrite Nat.add_0_l.
  serve_group (free_of (members (_detector_parameterisations self))) vals E.
  serve_group (free_of (members (_detector_parameterisations self))
               + free_of (members (_beam_parameterisations self))) vals E.
  match goal with
  | |- context [set_param_vals_group ?g ?it] =>
      pose proof (set_param_vals_group_slices g
        (free_of (members (_detector_parameterisations self))
         + free_of (members (_beam_parameterisations self))
         + free_of (members (_xl_orientation_parameterisations self))) vals) as H;
      destruct (set_param_vals_group g it) as [[? ?] ?];
      destruct H as (-> & -> & _); [lia|];
      destruct (hand_slices (members g) _ vals) as [? ?]; reflexivity
  end.
Qed.

(** The cached length stays right under [set_param_vals] when no
    setter changes the number of free parameters of its model. *)
Lemma set_param_vals_keeps_length (self : self_t) (vals : list Q) :
  (forall (m : DetP) v, Model.num_free (fst (Model.set_param_vals m v)) = Model.num_free m) ->
  (forall (m : BeamP) v, Model.num_free (fst (Model.set_param_vals m v)) = Model.num_free m) ->
  (forall (m : XloP) v, Model.num_free (fst (Model.set_param_vals m v)) = Model.num_free m) ->
  (forall (m : XlucP) v, Model.num_free (fst (Model.set_param_vals m v)) = Model.num_free m) ->
  __len__ self = _len self ->
  __len__ (fst (set_param_vals self vals)) = _len (fst (set_param_vals self vals)).
Proof.
  intros Kd Kb Ko Ku Hwf. rewrite !_len_total in *.
  unfold set_param_vals. destruct (negb _); [exact Hwf|].
  unfold total_free_parameters in *.
  pose proof (set_param_vals_group_free_of (_detector_parameterisations self) vals Kd) as F1.
  destruct (set_param_vals_group (_detector_parameterisations self) vals)
    as [[g1 it1] r1].
  cbn [fst] in F1. project_updates.
  destruct r1; [cbn [fst]; project_updates; now rewrite F1|].
  pose proof (set_param_vals_group_free_of (_beam_parameterisations self) it1 Kb) as F2.
  destruct (set_param_vals_group (_beam_parameterisations self) it1)
    as [[g2 it2] r2].
  cbn [fst] in F2. project_updates.
  destruct r2; [cbn [fst]; project_updates; now rewrite F1, F2|].
  pose proof (set_param_vals_group_free_of (_xl_orientation_parameterisations self) it2 Ko) as F3.
  destruct (set_param_vals_group (_xl_orientation_parameterisations self) it2)
    as [[g3 it3] r3].
  cbn [fst] in F3. project_updates.
  destruct r3; [cbn [fst]; project_updates; now rewrite F1, F2, F3|].
  pose proof (set_param_vals_group_free_of (_xl_unit_cell_parameterisations self) it3 Ku) as F4.
  destruct (set_param_vals_group (_xl_unit_cell_parameterisations self) it3)
    as [[g4 it4] r4].
  cbn [fst] in *. project_updates. now rewrite F1, F2, F3, F4.
Qed.

Lemma get_param_vals_concat (self : self_t) :
  get_param_vals self
  = concat (map Model.get_param_vals (members (_detector_parameterisations self)))
    ++ concat (map Model.get_param_vals (members (_beam_parameterisations self)))
    ++ concat (map Model.get_param_vals (members (_xl_orientation_parameterisations self)))
    ++ concat (map Model.get_param_vals (members (_xl_unit_cell_parameterisations self))).
Proof.
  unfold get_param_vals. rewrite !get_param_vals_group_concat.
  cbn [app]. now rewrite <- !app_assoc.
Qed.

(** C3: [set_param_vals(values)] fails with the length-mismatch error
    whenever [len(values)] differs from the total number of free
    parameters; when the lengths agree it is the setter of the
    specification, which hands every contained model its own contiguous
    slice of [num_free()] values, the groups being served in the order
    Detector, Beam, CrystalOrientation, CrystalUnitCell. *)
Theorem set_param_vals_checks_length_then_slices (self : self_t) (values : list Q) :
  __len__ self = _len self ->
  (length values <> total_free_parameters self ->
   set_param_vals self values = (self, Some AssertionError))
  /\ (length values = total_free_parameters self ->
      set_param_vals self values = set_param_vals_spec self values).
Proof.
  intros Hwf. split.
  - intros Hne. rewrite (set_param_vals_refines _ _ Hwf).
    unfold set_param_vals_spec.
    apply Nat.eqb_neq in Hne. now rewrite Hne.
  - intros _. apply set_param_vals_refines, Hwf.
Qed.

(** C10: a call of [set_param_vals] whose argument has the wrong length
    raises the length-mismatch error and leaves the object, and so every
    contained model, exactly as it was: no model's setter has run. *)
Theorem set_param_vals_mismatch_changes_nothing (self : self_t) (values : list Q) :
  length values <> __len__ self ->
  set_param_vals self values = (self, Some AssertionError).
Proof.
  intros Hne. unfold set_param_vals.
  apply Nat.eqb_neq in Hne. now rewrite Hne.
Qed.

Lemma with_same_groups (self : self_t) :
  with_xl_unit_cell_parameterisations
    (with_xl_orientation_parameterisations
       (with_beam_parameterisations
          (with_detector_parameterisations self (_detector_parameterisations self))
          (_beam_parameterisations self))
       (_xl_orientation_parameterisations self))
    (_xl_unit_cell_parameterisations self)
  = self.
Proof. destruct self; reflexivity. Qed.

(** C7: reading the parameter vector and setting it straight back
    leaves every contained model as it was, provided every contained
    model honours the contract of its own get/set pair. *)
Theorem get_then_set_is_noop (self : self_t) :
  __len__ self = _len self ->
  well_behaved (_detector_parameterisations self) ->
  well_behaved (_beam_parameterisations self) ->
  well_behaved (_xl_orientation_parameterisations self) ->
  well_behaved (_xl_unit_cell_parameterisations self) ->
  set_param_vals self (get_param_vals self) = (self, None).
Proof.
  intros Hwf Hd Hb Ho Hu. unfold well_behaved in *.
  rewrite (set_param_vals_refines _ _ Hwf).
  unfold set_param_vals_spec.
  pose proof (well_behaved_length Hd) as Ld.
  pose proof (well_behaved_length Hb) as Lb.
  pose proof (well_behaved_length Ho) as Lo.
  pose proof (well_behaved_length Hu) as Lu.
  rewrite get_param_vals_concat.
  set (vd := concat (map Model.get_param_vals (members (_detector_parameterisations self)))) in *.
  set (vb := concat (map Model.get_param_vals (members (_beam_parameterisations self)))) in *.
  set (vo := concat (map Model.get_param_vals (members (_xl_orientation_parameterisations self)))) in *.
  set (vu := concat (map Model.get_param_vals (members (_xl_unit_cell_parameterisations self)))) in *.
  replace (length (vd ++ vb ++ vo ++ vu) =? total_free_parameters self) with true
    by (symmetry; apply Nat.eqb_eq; unfold total_free_parameters;
        rewrite !length_app; lia).
  cbv zeta.
  pose proof (hand_slices_own_values [] (vb ++ vo ++ vu) Hd) as E1.
  rewrite app_nil_l in E1. cbn [length] in E1. fold vd in E1. rewrite E1.
  project_updates.
  pose proof (hand_slices_own_values vd (vo ++ vu) Hb) as E2.
  fold vb in E2. rewrite Ld in E2. rewrite E2.
  project_updates.
  pose proof (hand_slices_own_values (vd ++ vb) vu Ho) as E3.
  fold vo in E3. rewrite length_app, Ld, Lb, <- !app_assoc in E3. rewrite E3.
  project_updates.
  pose proof (hand_slices_own_values (vd ++ vb ++ vo) [] Hu) as E4.
  fold vu in E4.
  rewrite !length_app, Ld, Lb, Lo, app_nil_r, <- !app_assoc, Nat.add_assoc in E4.
  rewrite E4.
  rewrite !regroup_members. f_equal. apply with_same_groups.
Qed.

End Aggregate.

Lemma simple_model_well_behaved (T : Type) (m : Fixture.simple_model T) :
  checks_length m /\ round_trips m.
Proof.
  split.
  - intros vals m'. cbn. unfold Fixture.simple_set.
    destruct (length vals =? length (Fixture.sm_vals m)) eqn:E; [|discriminate].
    intros _. now apply Nat.eqb_eq.
  - unfold round_trips. cbn. unfold Fixture.simple_set.
    rewrite Nat.eqb_refl. now destruct m.
Qed.

Lemma set_param_vals_checks_length_then_slices_witness :
  set_param_vals Fixture.one_of_each [1; 2; 3; 4; 5]%Q
  = (Fixture.one_of_each, Some AssertionError)
  /\ set_param_vals Fixture.one_of_each [1; 2; 3; 4; 5; 6]%Q
     = set_param_vals_spec Fixture.one_of_each [1; 2; 3; 4; 5; 6]%Q.
Proof.
  split.
  - apply (proj1 (set_param_vals_checks_length_then_slices
                    Fixture.one_of_each [1; 2; 3; 4; 5]%Q eq_refl)).
    vm_compute. discriminate.
  - apply (proj2 (set_param_vals_checks_length_then_slices
                    Fixture.one_of_each [1; 2; 3; 4; 5; 6]%Q eq_refl)).
    reflexivity.
Defined.

Lemma set_param_vals_mismatch_changes_nothing_witness :
  set_param_vals Fixture.one_of_each [1; 2; 3]%Q
  = (Fixture.one_of_each, Some AssertionError).
Proof.
  apply set_param_vals_mismatch_changes_nothing. vm_compute. discriminate.
Defined.

Lemma get_then_set_is_noop_witness :
  set_param_vals Fixture.one_of_each (get_param_vals Fixture.one_of_each)
  = (Fixture.one_of_each, None).
Proof.
  apply get_then_set_is_noop;
    [ reflexivity
    | repeat constructor; apply simple_model_well_behaved .. ].
Defined.

End AggregateFacts.

(* ================================================================= *)
(** * Properties of the parameter names *)

Module NameFacts.

Import PredictionParameterisation AggregateSpec AggregateFacts.

Local Open Scope string_scope.

Lemma string_app_assoc (a b c : string) : (a ++ b) ++ c = a ++ (b ++ c).
Proof. induction a as [|ch a IH]; cbn; [reflexivity | now rewrite IH]. Qed.

Lemma string_app_inv_head (a x y : string) : a ++ x = a ++ y -> x = y.
Proof. induction a as [|ch a IH]; cbn; [auto | intros [= H]; auto]. Qed.

Lemma all_digits_nilempty (d : uint) :
  all_digits (NilEmpty.string_of_uint d) = true.
Proof. induction d; cbn; auto. Qed.

Lemma all_digits_percent_d (i : nat) : all_digits (percent_d i) = true.
Proof.
  unfold percent_d, NilZero.string_of_uint.
  destruct (Nat.to_uint i) eqn:E; try reflexivity;
    rewrite <- E; apply all_digits_nilempty.
Qed.

Lemma percent_d_inj (i j : nat) : percent_d i = percent_d j -> i = j.
Proof.
  assert (D : forall n, option_map Nat.of_uint (NilZero.uint_of_string (percent_d n)) = Some n).
  { intros n. unfold percent_d.
    destruct (Nat.to_uint n) eqn:E;
      [ cbn; f_equal; rewrite <- (DecimalNat.Unsigned.of_to n), E; reflexivity
      | rewrite NilZero.usu by discriminate; cbn [option_map]; f_equal;
        rewrite <- E; apply DecimalNat.Unsigned.of_to .. ]. }
  intros H. pose proof (D i) as Di. rewrite H, D in Di. congruence.
Qed.

(** A run of digits followed by a name that does not begin with a digit
    can be read back in one way only. *)
Lemma digits_split (d1 d2 x y : string) :
  all_digits d1 = true -> all_digits d2 = true ->
  starts_with_digit x = false -> starts_with_digit y = false ->
  d1 ++ x = d2 ++ y -> d1 = d2 /\ x = y.
Proof.
  revert d2. induction d1 as [|a d1 IH]; intros [|c d2]; cbn;
    intros H1 H2 Hx Hy E.
  - auto.
  - subst x. cbn in Hx. apply andb_prop in H2. destruct H2. congruence.
  - subst y. cbn in Hy. apply andb_prop in H1. destruct H1. congruence.
  - injection E as -> E. apply andb_prop in H1, H2.
    destruct (IH d2) as [-> ->]; tauto.
Qed.

Lemma name_inj (label : string) (i j : nat) (x y : string) :
  starts_with_digit x = false -> starts_with_digit y = false ->
  label ++ percent_d i ++ x = label ++ percent_d j ++ y -> i = j /\ x = y.
Proof.
  intros Hx Hy E. apply string_app_inv_head in E.
  apply digits_split in E; auto using all_digits_percent_d.
  destruct E as [E ->]. split; [now apply percent_d_inj | reflexivity].
Qed.

Section GroupNames.

Context {M T : Type} {P : Model.Parameterisation M T}.

Lemma flat_map_enumerate (label : string) (k : nat) (lists : list (list string)) :
  flat_map (fun il => map (fun x => (label ++ percent_d (fst il)) ++ x) (snd il))
           (combine (seq k (length lists)) lists)
  = group_names label k lists.
Proof.
  revert k. induction lists as [|l rest IH]; intros k; cbn; [reflexivity|].
  rewrite IH. f_equal. apply map_ext. intros x. apply string_app_assoc.
Qed.

Lemma get_param_names_group_names (label : string) (g : group M) (acc : list string) :
  get_param_names_group label g acc = (acc ++ names_of label g)%list.
Proof.
  unfold get_param_names_group, names_of, enumerate.
  destruct (truthy g) eqn:E.
  - now rewrite flat_map_enumerate.
  - rewrite (falsy_members _ E). cbn. now rewrite app_nil_r.
Qed.

Lemma length_group_names (label : string) (k : nat) (lists : list (list string)) :
  length (group_names label k lists) = list_sum (map (@length string) lists).
Proof.
  revert k. induction lists as [|l rest IH]; intros k; cbn; [reflexivity|].
  now rewrite length_app, length_map, IH.
Qed.

Lemma length_names_of (label : string) (g : group M) :
  counted_names g -> length (names_of label g) = free_of (members g).
Proof.
  unfold counted_names, names_of, free_of. rewrite length_group_names, map_map.
  intros H. f_equal. apply map_ext_in. intros m Hm.
  rewrite Forall_forall in H. now apply H.
Qed.

(** Where a name of a group comes from. *)
Lemma in_group_names (label : string) (k : nat) (lists : list (list string)) (n : string) :
  In n (group_names label k lists) ->
  exists i l x, nth_error lists i = Some l /\ In x l
                /\ n = label ++ percent_d (k + i) ++ x.
Proof.
  revert k. induction lists as [|l rest IH]; intros k; cbn; [tauto|].
  intros [H|H]%in_app_or.
  - apply in_map_iff in H as (x & <- & Hx).
    exists 0, l, x. rewrite Nat.add_0_r. auto.
  - apply IH in H as (i & l' & x & Hn & Hx & ->).
    exists (S i), l', x. rewrite Nat.add_succ_r. auto.
Qed.

Lemma NoDup_group_names (label : string) (k : nat) (lists : list (list string)) :
  Forall (fun l => NoDup l /\ Forall (fun x => starts_with_digit x = false) l) lists ->
  NoDup (group_names label k lists).
Proof.
  revert k. induction lists as [|l rest IH]; intros k Hall; cbn; [constructor|].
  inversion Hall as [|? ? [Hnd Hdig] Hrest]; subst.
  rewrite Forall_forall in Hdig.
  apply NoDup_app.
  - apply NoDup_map_NoDup_ForallPairs; [|assumption].
    intros x y Hx Hy E. apply name_inj in E; auto. tauto.
  - apply IH, Hrest.
  - intros a (x & <- & Hx)%in_map_iff Ha.
    apply in_group_names in Ha as (i & l' & y & Hn & Hy & E).
    rewrite Forall_forall in Hrest.
    destruct (Hrest l' (nth_error_In _ _ Hn)) as [_ Hdig'].
    rewrite Forall_forall in Hdig'.
    apply name_inj in E; auto. lia.
Qed.

Lemma tidy_names_lists (g : group M) :
  tidy_names g ->
  Forall (fun l => NoDup l /\ Forall (fun x => starts_with_digit x = false) l)
         (map Model.get_param_names (members g)).
Proof. unfold tidy_names. intros H. now apply Forall_map. Qed.

(** Where a name of [names_of] comes from. *)
Lemma in_names_of (label : string) (g : group M) (n : string) :
  In n (names_of label g) ->
  exists i m x, nth_error (members g) i = Some m
                /\ In x (Model.get_param_names m)
                /\ n = label ++ percent_d i ++ x.
Proof.
  unfold names_of. intros H.
  apply in_group_names in H as (i & l & x & Hn & Hx & ->).
  rewrite nth_error_map in Hn.
  destruct (nth_error (members g) i) as [m|] eqn:Em; cbn in Hn; [|discriminate].
  injection Hn as <-. exists i, m, x. auto.
Qed.

End GroupNames.

Section Names.

Context {DetP BeamP XloP XlucP : Type}.
Context {det_model : Model.Parameterisation DetP mat3}.
Context {beam_model : Model.Parameterisation BeamP vec3}.
Context {xlo_model : Model.Parameterisation XloP mat3}.
Context {xluc_model : Model.Parameterisation XlucP mat3}.

Abbreviation self_t := (PredictionParameterisation.t DetP BeamP XloP XlucP).

Lemma get_param_names_concat (self : self_t) :
  get_param_names self
  = (names_of "Detector" (_detector_parameterisations self)
     ++ names_of "Source" (_beam_parameterisations self)
     ++ names_of "Crystal" (_xl_orientation_parameterisations self)
     ++ names_of "Crystal" (_xl_unit_cell_parameterisations self))%list.
Proof.
  unfold get_param_names. rewrite !get_param_names_group_names.
  cbn [app]. now rewrite <- !app_assoc.
Qed.

Ltac other_label :=
  match goal with
  | H1 : In ?a (names_of _ _), H2 : In ?a (names_of _ _) |- _ =>
      apply in_names_of in H1 as (? & ? & ? & _ & _ & ->);
      apply in_names_of in H2 as (? & ? & ? & _ & _ & E);
      cbn in E; discriminate E
  end.

Lemma crystal_groups_apart (self : self_t) (a : string) :
  tidy_names (_xl_orientation_parameterisations self) ->
  tidy_names (_xl_unit_cell_parameterisations self) ->
  crystal_names_apart self ->
  In a (names_of "Crystal" (_xl_orientation_parameterisations self)) ->
  ~ In a (names_of "Crystal" (_xl_unit_cell_parameterisations self)).
Proof.
  intros To Tu Hapart Ho Hu. unfold tidy_names in To, Tu.
  rewrite Forall_forall in To, Tu.
  apply in_names_of in Ho as (i & mo & x & Hmo & Hx & ->).
  apply in_names_of in Hu as (j & mu & y & Hmu & Hy & E).
  destruct (To mo (nth_error_In _ _ Hmo)) as [_ Dx].
  destruct (Tu mu (nth_error_In _ _ Hmu)) as [_ Dy].
  rewrite Forall_forall in Dx, Dy.
  apply name_inj in E; auto. destruct E as [-> ->].
  exact (Hapart j mo mu y Hmo Hmu Hx Hy).
Qed.

(** C6, as amended: [get_param_names()] lists, in the order Detector,
    Beam, CrystalOrientation, CrystalUnitCell and model by model, every
    name a model reports, prefixed with the label of the group
    ("Detector", "Source", and "Crystal" for both crystal groups) and the
    decimal zero-based index of the model within its group; there is one
    name per free parameter when every model reports one name per free
    parameter; and the names are pairwise distinct provided every model's
    own names are distinct and do not begin with a digit and no
    CrystalOrientation model shares a name with the CrystalUnitCell
    model of the same index. *)
Theorem get_param_names_labelled (self : self_t) :
  get_param_names self
  = (names_of "Detector" (_detector_parameterisations self)
     ++ names_of "Source" (_beam_parameterisations self)
     ++ names_of "Crystal" (_xl_orientation_parameterisations self)
     ++ names_of "Crystal" (_xl_unit_cell_parameterisations self))%list
  /\ (counted_names (_detector_parameterisations self) ->
      counted_names (_beam_parameterisations self) ->
      counted_names (_xl_orientation_parameterisations self) ->
      counted_names (_xl_unit_cell_parameterisations self) ->
      length (get_param_names self) = total_free_parameters self)
  /\ (tidy_names (_detector_parameterisations self) ->
      tidy_names (_beam_parameterisations self) ->
      tidy_names (_xl_orientation_parameterisations self) ->
      tidy_names (_xl_unit_cell_parameterisations self) ->
      crystal_names_apart self ->
      NoDup (get_param_names self)).
Proof.
  rewrite get_param_names_concat. split; [reflexivity|]. split.
  - intros Cd Cb Co Cu. unfold total_free_parameters.
    rewrite !length_app, !length_names_of by assumption. lia.
  - intros Td Tb To Tu Hapart.
    pose proof (NoDup_group_names "Detector" 0 (tidy_names_lists Td)) as Nd.
    pose proof (NoDup_group_names "Source" 0 (tidy_names_lists Tb)) as Nb.
    pose proof (NoDup_group_names "Crystal" 0 (tidy_names_lists To)) as No.
    pose proof (NoDup_group_names "Crystal" 0 (tidy_names_lists Tu)) as Nu.
    fold (names_of "Detector" (_detector_parameterisations self)) in Nd.
    fold (names_of "Source" (_beam_parameterisations self)) in Nb.
    fold (names_of "Crystal" (_xl_orientation_parameterisations self)) in No.
    fold (names_of "Crystal" (_xl_unit_cell_parameterisations self)) in Nu.
    apply NoDup_app; [assumption | apply NoDup_app; [assumption | apply NoDup_app |] |].
    + assumption.
    + assumption.
    + intros a. now apply crystal_groups_apart.
    + intros a Ha [Hb|Hb]%in_app_or; other_label.
    + intros a Ha [Hb|[Hb|Hb]%in_app_or]%in_app_or; other_label.
Qed.

End Names.

(** C6, as the claim states it, fails: a CrystalOrientation model and a
    CrystalUnitCell model that both call a parameter "a" yield the same
    name twice, since both groups carry the label "Crystal". *)
Lemma same_crystal_names_collide :
  get_param_names Fixture.same_crystal_names = ["Crystal0a"; "Crystal0a"]
  /\ ~ NoDup (get_param_names Fixture.same_crystal_names).
Proof.
  split; [reflexivity|].
  change (~ NoDup ["Crystal0a"; "Crystal0a"]).
  intros H. inversion H as [|? ? Hin _]; subst. apply Hin. now left.
Qed.

(** Own names that begin with a digit can collide within one group:
    model 1 with the name "0x" and model 10 with the name "x". *)
Lemma digit_names_collide :
  "Detector" ++ percent_d 1 ++ "0x" = "Detector" ++ percent_d 10 ++ "x".
Proof. reflexivity. Qed.

Lemma one_of_each_counted :
  counted_names (_detector_parameterisations Fixture.one_of_each)
  /\ counted_names (_beam_parameterisations Fixture.one_of_each)
  /\ counted_names (_xl_orientation_parameterisations Fixture.one_of_each)
  /\ counted_names (_xl_unit_cell_parameterisations Fixture.one_of_each).
Proof. repeat split; repeat constructor. Qed.

Lemma one_of_each_tidy :
  tidy_names (_detector_parameterisations Fixture.one_of_each)
  /\ tidy_names (_beam_parameterisations Fixture.one_of_each)
  /\ tidy_names (_xl_orientation_parameterisations Fixture.one_of_each)
  /\ tidy_names (_xl_unit_cell_parameterisations Fixture.one_of_each).
Proof.
  repeat split; repeat constructor; cbn; intuition discriminate.
Qed.

Lemma one_of_each_apart : crystal_names_apart Fixture.one_of_each.
Proof.
  intros [|[|i]] mo mu x Ho Hu Hx Hy; cbn in Ho, Hu; try discriminate.
  injection Ho as <-. injection Hu as <-. cbn in Hx, Hy.
  intuition (subst; discriminate).
Qed.

Lemma get_param_names_labelled_witness :
  get_param_names Fixture.one_of_each
  = ["Detector0Dist"; "Detector0Tau"; "Source0Mu";
     "Crystal0Phi1"; "Crystal0Phi2"; "Crystal0g_param_0"]
  /\ length (get_param_names Fixture.one_of_each) = 6
  /\ NoDup (get_param_names Fixture.one_of_each).
Proof.
  pose proof (get_param_names_labelled Fixture.one_of_each) as (Hn & Hl & Hu).
  destruct one_of_each_counted as (C1 & C2 & C3 & C4).
  destruct one_of_each_tidy as (T1 & T2 & T3 & T4).
  split; [exact Hn|]. split.
  - exact (Hl C1 C2 C3 C4).
  - exact (Hu T1 T2 T3 T4 one_of_each_apart).
Defined.

End NameFacts.

(* ================================================================= *)
(** * Properties of the gradient computation *)

Module GradientFacts.

Import PredictionParameterisation GradientSpec.
Import DetectorSpacePredictionParameterisation.

Module Py := DetectorSpacePredictionParameterisation_py.

Lemma py_div_nonzero (a b : Q) : ~ (b == 0)%Q -> py_div a b = Ok (a / b)%Q.
Proof.
  intros Hb. unfold py_div. destruct (Qeq_bool b 0) eqn:E; [|reflexivity].
  apply Qeq_bool_iff in E. contradiction.
Qed.

Lemma py_div_raises (a b : Q) (e : exn) :
  py_div a b = Raise e -> e = ZeroDivisionError.
Proof. unfold py_div. destruct (Qeq_bool b 0); congruence. Qed.

Lemma square_nonzero (w : Q) : ~ (w == 0)%Q -> ~ (w ^ 2 == 0)%Q.
Proof.
  intros Hw H. change (w ^ 2)%Q with (w * w)%Q in H.
  apply Qmult_integral in H. tauto.
Qed.



(** The value returned is the derivative of the quotients u/w and v/w. *)
Lemma quotient_rule_is_derivative (u v w du dv dw : Q) :
  ~ (w == 0)%Q ->
  (du / w - u * dw / w ^ 2 == (du * w - u * dw) / (w * w))%Q
  /\ (dv / w - v * dw / w ^ 2 == (dv * w - v * dw) / (w * w))%Q.
Proof.
  intros Hw. change (w ^ 2)%Q with (w * w)%Q. split; field; auto.
Qed.

(** With a zero third component of pv the projection step raises. *)
Lemma quotient_rule_zero_w (pv der : vec3) :
  (vz pv == 0)%Q ->
  _calc_dX_dp_and_dY_dp_from_dpv_dp pv der = Raise ZeroDivisionError.
Proof.
  intros Hw. unfold _calc_dX_dp_and_dY_dp_from_dpv_dp, py_div.
  apply Qeq_bool_iff in Hw. now rewrite Hw.
Qed.

(** *** Which exceptions the loops can raise *)

Lemma bind_raises {A B : Type} (P : exn -> Prop) (c : result A) (k : A -> result B) :
  (forall e, c = Raise e -> P e) ->
  (forall a e, k a = Raise e -> P e) ->
  forall e, bind c k = Raise e -> P e.
Proof.
  intros Hc Hk e. destruct c as [a|e0]; cbn.
  - apply Hk.
  - intros [= <-]. now apply Hc.
Qed.

Lemma comprehension_raises {A B : Type} (P : exn -> Prop) (f : A -> result B)
  (xs : list A) :
  (forall x e, f x = Raise e -> P e) ->
  forall e, comprehension f xs = Raise e -> P e.
Proof.
  intros Hf. induction xs as [|x xs IH]; cbn; intros e; [discriminate|].
  destruct (f x) eqn:Ex.
  - destruct (comprehension f xs); [discriminate|]. intros [= <-]. now apply IH.
  - intros [= <-]. eauto.
Qed.

Lemma for_each_raises {X S : Type} (P : exn -> Prop)
  (body : X -> S -> result (flow S)) (xs : list X) :
  (forall x s e, body x s = Raise e -> P e) ->
  forall s e, for_each body xs s = Raise e -> P e.
Proof.
  intros Hb. induction xs as [|x xs IH]; cbn; intros s e; [discriminate|].
  destruct (body x s) as [[s'|s']|e'] eqn:Ex.
  - apply IH.
  - discriminate.
  - intros [= <-]. eauto.
Qed.

Section Core.

Context {DetP BeamP XloP XlucP : Type}.
Context {det_model : Model.Parameterisation DetP mat3}.
Context {beam_model : Model.Parameterisation BeamP vec3}.
Context {xlo_model : Model.Parameterisation XloP mat3}.
Context {xluc_model : Model.Parameterisation XlucP mat3}.
Context {scitbx : MatrixLib}.

Abbreviation self_t := (PredictionParameterisation.t DetP BeamP XloP XlucP).

Lemma py_div_not_assertion (a b : Q) (e : exn) :
  py_div a b = Raise e -> not_assertion e.
Proof. intros ->%py_div_raises. discriminate. Qed.

Lemma detector_body_not_assertion (g : Geometry) (pv : vec3) x st e :
  detector_body (det_model := det_model) g pv x st = Raise e -> not_assertion e.
Proof.
  destruct x as [idet det], st as [dd [dpv dphi]]. unfold detector_body.
  destruct (idet =? 0); [discriminate|].
  destruct dd; cbn; [discriminate|]. intros [= <-]. discriminate.
Qed.

Lemma py_detector_body_not_assertion (g : Geometry) (pv : vec3) x st e :
  Py.detector_body (det_model := det_model) g pv x st = Raise e -> not_assertion e.
Proof.
  destruct x as [idet det], st as [dd [dpv dphi]]. unfold Py.detector_body.
  destruct (idet =? 0); [discriminate|].
  destruct dd; cbn; [discriminate|]. intros [= <-]. discriminate.
Qed.

Lemma py_crystal_tail_not_assertion (g : Geometry) s e_X_r e_r_s0 dr acc e :
  Py.crystal_tail g s e_X_r e_r_s0 dr acc = Raise e -> not_assertion e.
Proof.
  destruct acc as [dpv dphi]. unfold Py.crystal_tail.
  apply bind_raises.
  - apply comprehension_raises. intros x e'. apply py_div_not_assertion.
  - discriminate.
Qed.

Lemma detector_derivatives_not_assertion (self : self_t) g acc pv e :
  detector_derivatives self g acc pv = Raise e -> not_assertion e.
Proof.
  unfold detector_derivatives. apply bind_raises; [|discriminate].
  apply for_each_raises. apply detector_body_not_assertion.
Qed.

Lemma beam_derivatives_not_assertion (self : self_t) g acc r e_X_r e_r_s0 e :
  beam_derivatives self g acc r e_X_r e_r_s0 = Raise e -> not_assertion e.
Proof. apply for_each_raises. intros x [dpv dphi] e'. discriminate. Qed.

Lemma xl_orientation_derivatives_not_assertion (self : self_t) g acc R h s
  e_X_r e_r_s0 e :
  xl_orientation_derivatives self g acc R h s e_X_r e_r_s0 = Raise e ->
  not_assertion e.
Proof. apply for_each_raises. intros x [dpv dphi] e'. discriminate. Qed.

Lemma xl_unit_cell_derivatives_not_assertion (self : self_t) g acc R h s
  e_X_r e_r_s0 e :
  xl_unit_cell_derivatives self g acc R h s e_X_r e_r_s0 = Raise e ->
  not_assertion e.
Proof. apply for_each_raises. intros x [dpv dphi] e'. discriminate. Qed.

Lemma py_detector_derivatives_not_assertion (self : self_t) g acc pv e :
  Py.detector_derivatives self g acc pv = Raise e -> not_assertion e.
Proof.
  unfold Py.detector_derivatives. apply bind_raises; [|discriminate].
  apply for_each_raises. apply py_detector_body_not_assertion.
Qed.

Lemma py_beam_derivatives_not_assertion (self : self_t) g acc r e_X_r e_r_s0 e :
  Py.beam_derivatives self g acc r e_X_r e_r_s0 = Raise e -> not_assertion e.
Proof.
  apply for_each_raises. intros x [dpv dphi] e'. unfold Py.beam_body.
  apply bind_raises; [|discriminate].
  apply comprehension_raises. intros y e''. apply py_div_not_assertion.
Qed.

Lemma py_xl_orientation_derivatives_not_assertion (self : self_t) g acc R h s
  e_X_r e_r_s0 e :
  Py.xl_orientation_derivatives self g acc R h s e_X_r e_r_s0 = Raise e ->
  not_assertion e.
Proof.
  apply for_each_raises. intros x acc' e'. apply py_crystal_tail_not_assertion.
Qed.

Lemma py_xl_unit_cell_derivatives_not_assertion (self : self_t) g acc R h s
  e_X_r e_r_s0 e :
  Py.xl_unit_cell_derivatives self g acc R h s e_X_r e_r_s0 = Raise e ->
  not_assertion e.
Proof.
  apply for_each_raises. intros x acc' e'. apply py_crystal_tail_not_assertion.
Qed.

Lemma quotient_rule_not_assertion (pv der : vec3) (e : exn) :
  _calc_dX_dp_and_dY_dp_from_dpv_dp pv der = Raise e -> not_assertion e.
Proof.
  unfold _calc_dX_dp_and_dY_dp_from_dpv_dp.
  repeat (apply bind_raises; [apply py_div_not_assertion | intros ?]).
  discriminate.
Qed.

Lemma unzip_pairs_not_assertion (pos_grad : list (Q * Q)) (e : exn) :
  unzip_pairs pos_grad = Raise e -> not_assertion e.
Proof. destruct pos_grad; cbn; [intros [= <-]|]; discriminate. Qed.

(** The test of the core on [(e X r).s0]. *)
Lemma tolerance_test (x : Q) :
  negb (Qgtb (Qabs x) tolerance) = true <-> (Qabs x <= tolerance)%Q.
Proof.
  unfold Qgtb. rewrite negb_involutive. apply Qle_bool_iff.
Qed.


(** *** What the four helpers append *)

Lemma comprehension_py_div {A : Type} (f : A -> Q) (d : Q) (xs : list A) :
  ~ (d == 0)%Q ->
  comprehension (fun x => py_div (f x) d) xs = Ok (map (fun x => (f x / d)%Q) xs).
Proof.
  intros Hd. induction xs as [|x xs IH]; cbn; [reflexivity|].
  now rewrite (py_div_nonzero _ Hd), IH.
Qed.

Lemma map_combine_map_l {A B C : Type} (f : A -> B) (k : B * A -> C) (xs : list A) :
  map k (combine (map f xs) xs) = map (fun x => k (f x, x)) xs.
Proof. induction xs as [|x xs IH]; cbn; [reflexivity | now rewrite IH]. Qed.

Lemma map_combine_map_r {A B C : Type} (f : A -> B) (k : A * B -> C) (xs : list A) :
  map k (combine xs (map f xs)) = map (fun x => k (x, f x)) xs.
Proof. induction xs as [|x xs IH]; cbn; [reflexivity | now rewrite IH]. Qed.

Lemma repeat_add {A : Type} (x : A) (n m : nat) :
  repeat x (n + m) = repeat x n ++ repeat x m.
Proof. induction n as [|n IH]; cbn; [reflexivity | now rewrite IH]. Qed.

(** A loop whose body appends to both lists and never returns early. *)
Lemma for_each_continue {X : Type}
  (body : X -> accumulators -> result (flow accumulators))
  (F : X -> list vec3) (G : X -> list Q) (xs : list X) :
  (forall x dpv_dp dphi_dp,
     body x (dpv_dp, dphi_dp) = Ok (Continue (dpv_dp ++ F x, dphi_dp ++ G x))) ->
  forall dpv_dp dphi_dp,
    for_each body xs (dpv_dp, dphi_dp)
    = Ok (dpv_dp ++ concat (map F xs), dphi_dp ++ concat (map G xs)).
Proof.
  intros Hb. induction xs as [|x xs IH]; intros dpv_dp dphi_dp; cbn.
  - now rewrite !app_nil_r.
  - rewrite Hb, IH. now rewrite !app_assoc.
Qed.

Lemma detector_derivatives_run (self : self_t) (g : Geometry)
  (dpv_dp : list vec3) (dphi_dp : list Q) (pv : vec3)
  (det : DetP) (rest : list DetP) :
  members (_detector_parameterisations self) = det :: rest ->
  detector_derivatives self g (dpv_dp, dphi_dp) pv
  = Ok (dpv_dp ++ map (detector_dpv (_D g) pv) (Model.get_ds_dp det),
        dphi_dp ++ repeat 0%Q (length (Model.get_ds_dp det))).
Proof.
  intros Hm. unfold detector_derivatives, enumerate. rewrite Hm.
  cbn [length seq combine for_each detector_body Nat.eqb bind snd].
  unfold dials_refinement_helpers_ext.detector_pv_derivative.
  now rewrite map_id.
Qed.

(** The later iterations of the pure-Python detector loop: one block of
    zeros per model, as long as the FIRST model's list of derivatives. *)
Lemma py_detector_later_models (g : Geometry) (pv : vec3) (dd : list mat3)
  (rest : list DetP) (k : nat) (dpv_dp : list vec3) (dphi_dp : list Q) :
  for_each (Py.detector_body g pv) (combine (seq (S k) (length rest)) rest)
           (Some dd, (dpv_dp, dphi_dp))
  = Ok (Some dd, (dpv_dp ++ repeat vzero (length rest * length dd),
                  dphi_dp ++ repeat 0%Q (length rest * length dd))).
Proof.
  revert k dpv_dp dphi_dp. induction rest as [|m rest IH]; intros k dpv_dp dphi_dp.
  - cbn. now rewrite !app_nil_r.
  - cbn [length seq combine for_each Py.detector_body Nat.eqb bind].
    rewrite IH. cbn [Nat.mul]. now rewrite !repeat_add, !app_assoc.
Qed.

Lemma py_detector_derivatives_run (self : self_t) (g : Geometry)
  (dpv_dp : list vec3) (dphi_dp : list Q) (pv : vec3)
  (det : DetP) (rest : list DetP) :
  members (_detector_parameterisations self) = det :: rest ->
  let n := length (Model.get_ds_dp det) in
  Py.detector_derivatives self g (dpv_dp, dphi_dp) pv
  = Ok (dpv_dp ++ map (detector_dpv (_D g) pv) (Model.get_ds_dp det)
               ++ repeat vzero (length rest * n),
        dphi_dp ++ repeat 0%Q n ++ repeat 0%Q (length rest * n)).
Proof.
  intros Hm n. unfold Py.detector_derivatives, enumerate. rewrite Hm.
  cbn [length seq combine for_each Py.detector_body Nat.eqb bind].
  rewrite py_detector_later_models. cbn [bind snd].
  now rewrite <- !app_assoc.
Qed.

Lemma beam_derivatives_run (self : self_t) (g : Geometry)
  (dpv_dp : list vec3) (dphi_dp : list Q) (r e_X_r : vec3) (e_r_s0 : Q)
  (src : BeamP) (rest : list BeamP) :
  members (_beam_parameterisations self) = src :: rest ->
  beam_derivatives self g (dpv_dp, dphi_dp) r e_X_r e_r_s0
  = Ok (dpv_dp ++ map (beam_dpv (_D g) r e_X_r e_r_s0) (Model.get_ds_dp src),
        dphi_dp ++ map (beam_dphi r e_r_s0) (Model.get_ds_dp src)).
Proof.
  intros Hm. unfold beam_derivatives. rewrite Hm. cbn [for_each beam_body].
  unfold dials_refinement_helpers_ext.beam_pv_derivative,
    dials_refinement_helpers_ext.beam_phi_derivative.
  now rewrite map_combine_map_l.
Qed.

Lemma py_beam_derivatives_run (self : self_t) (g : Geometry)
  (dpv_dp : list vec3) (dphi_dp : list Q) (r e_X_r : vec3) (e_r_s0 : Q)
  (src : BeamP) (rest : list BeamP) :
  members (_beam_parameterisations self) = src :: rest ->
  ~ (e_r_s0 == 0)%Q ->
  Py.beam_derivatives self g (dpv_dp, dphi_dp) r e_X_r e_r_s0
  = Ok (dpv_dp ++ map (beam_dpv (_D g) r e_X_r e_r_s0) (Model.get_ds_dp src),
        dphi_dp ++ map (beam_dphi r e_r_s0) (Model.get_ds_dp src)).
Proof.
  intros Hm Hd. unfold Py.beam_derivatives. rewrite Hm.
  cbn [for_each Py.beam_body].
  rewrite (comprehension_py_div (fun ds0 => (- dot r ds0)%Q) _ Hd).
  cbn [bind]. now rewrite map_combine_map_l.
Qed.

Lemma py_crystal_tail_run (g : Geometry) (s e_X_r : vec3) (e_r_s0 : Q)
  (dr_dp : list vec3) (dpv_dp : list vec3) (dphi_dp : list Q) :
  ~ (e_r_s0 == 0)%Q ->
  Py.crystal_tail g s e_X_r e_r_s0 dr_dp (dpv_dp, dphi_dp)
  = Ok (Continue (dpv_dp ++ map (crystal_dpv (_D g) s e_X_r e_r_s0) dr_dp,
                  dphi_dp ++ map (crystal_dphi s e_r_s0) dr_dp)).
Proof.
  intros Hd. unfold Py.crystal_tail.
  rewrite (comprehension_py_div (fun der => (- dot der s)%Q) _ Hd).
  cbn [bind]. now rewrite map_combine_map_r.
Qed.

Lemma xl_orientation_derivatives_run (self : self_t) (g : Geometry)
  (dpv_dp : list vec3) (dphi_dp : list Q) (R : mat3) (h s e_X_r : vec3) (e_r_s0 : Q) :
  let dr := orientation_dr R (_B g) (truncated h) in
  let xlos := members (_xl_orientation_parameterisations self) in
  xl_orientation_derivatives self g (dpv_dp, dphi_dp) R h s e_X_r e_r_s0
  = Ok (dpv_dp ++ concat (map (fun xlo =>
                    map (fun dU => crystal_dpv (_D g) s e_X_r e_r_s0 (dr dU))
                        (Model.get_ds_dp xlo)) xlos),
        dphi_dp ++ concat (map (fun xlo =>
                    map (fun dU => crystal_dphi s e_r_s0 (dr dU))
                        (Model.get_ds_dp xlo)) xlos)).
Proof.
  intros dr xlos. apply for_each_continue. intros xlo dpv dphi.
  unfold xl_orientation_body,
    dials_refinement_helpers_ext.crystal_orientation_pv_derivative,
    dials_refinement_helpers_ext.crystal_orientation_phi_derivative,
    dials_refinement_helpers_ext.crystal_orientation_r_derivative.
  now rewrite map_combine_map_r, !map_map.
Qed.

Lemma py_xl_orientation_derivatives_run (self : self_t) (g : Geometry)
  (dpv_dp : list vec3) (dphi_dp : list Q) (R : mat3) (h s e_X_r : vec3) (e_r_s0 : Q) :
  ~ (e_r_s0 == 0)%Q ->
  let dr := orientation_dr R (_B g) h in
  let xlos := members (_xl_orientation_parameterisations self) in
  Py.xl_orientation_derivatives self g (dpv_dp, dphi_dp) R h s e_X_r e_r_s0
  = Ok (dpv_dp ++ concat (map (fun xlo =>
                    map (fun dU => crystal_dpv (_D g) s e_X_r e_r_s0 (dr dU))
                        (Model.get_ds_dp xlo)) xlos),
        dphi_dp ++ concat (map (fun xlo =>
                    map (fun dU => crystal_dphi s e_r_s0 (dr dU))
                        (Model.get_ds_dp xlo)) xlos)).
Proof.
  intros Hd dr xlos. apply for_each_continue. intros xlo dpv dphi.
  unfold Py.xl_orientation_body. rewrite (py_crystal_tail_run _ _ _ _ _ _ Hd).
  now rewrite !map_map.
Qed.

Lemma xl_unit_cell_derivatives_run (self : self_t) (g : Geometry)
  (dpv_dp : list vec3) (dphi_dp : list Q) (R : mat3) (h s e_X_r : vec3) (e_r_s0 : Q) :
  let dr := cell_dr R (_U g) (truncated h) in
  let xlucs := members (_xl_unit_cell_parameterisations self) in
  xl_unit_cell_derivatives self g (dpv_dp, dphi_dp) R h s e_X_r e_r_s0
  = Ok (dpv_dp ++ concat (map (fun xluc =>
                    map (fun dB => crystal_dpv (_D g) s e_X_r e_r_s0 (dr dB))
                        (Model.get_ds_dp xluc)) xlucs),
        dphi_dp ++ concat (map (fun xluc =>
                    map (fun dB => crystal_dphi s e_r_s0 (dr dB))
                        (Model.get_ds_dp xluc)) xlucs)).
Proof.
  intros dr xlucs. apply for_each_continue. intros xluc dpv dphi.
  unfold xl_unit_cell_body,
    dials_refinement_helpers_ext.crystal_cell_pv_derivative,
    dials_refinement_helpers_ext.crystal_cell_phi_derivative,
    dials_refinement_helpers_ext.crystal_cell_r_derivative.
  now rewrite map_combine_map_r, !map_map.
Qed.

Lemma py_xl_unit_cell_derivatives_run (self : self_t) (g : Geometry)
  (dpv_dp : list vec3) (dphi_dp : list Q) (R : mat3) (h s e_X_r : vec3) (e_r_s0 : Q) :
  ~ (e_r_s0 == 0)%Q ->
  let dr := cell_dr R (_U g) h in
  let xlucs := members (_xl_unit_cell_parameterisations self) in
  Py.xl_unit_cell_derivatives self g (dpv_dp, dphi_dp) R h s e_X_r e_r_s0
  = Ok (dpv_dp ++ concat (map (fun xluc =>
                    map (fun dB => crystal_dpv (_D g) s e_X_r e_r_s0 (dr dB))
                        (Model.get_ds_dp xluc)) xlucs),
        dphi_dp ++ concat (map (fun xluc =>
                    map (fun dB => crystal_dphi s e_r_s0 (dr dB))
                        (Model.get_ds_dp xluc)) xlucs)).
Proof.
  intros Hd dr xlucs. apply for_each_continue. intros xluc dpv dphi.
  unfold Py.xl_unit_cell_body. rewrite (py_crystal_tail_run _ _ _ _ _ _ Hd).
  now rewrite !map_map.
Qed.

(** *** The length of a gradient row *)

Lemma length_concat_map {A B C : Type} (f : A -> list B) (k : B -> C) (xs : list A) :
  length (concat (map (fun x => map k (f x)) xs))
  = list_sum (map (fun x => length (f x)) xs).
Proof.
  induction xs as [|x xs IH]; cbn; [reflexivity|].
  now rewrite length_app, length_map, IH.
Qed.

Lemma members_truthy {M : Type} (g : group M) :
  truthy g = true -> exists m rest, members g = m :: rest.
Proof. destruct g as [[|m rest]|]; cbn; try discriminate. eauto. Qed.

Lemma first_entries_falsy {M T : Type} {P : Model.Parameterisation M T} (g : group M) :
  truthy g = false -> first_entries g = 0 /\ all_entries g = 0 /\ members g = [].
Proof. destruct g as [[|m rest]|]; cbn; try discriminate; auto. Qed.

Lemma comprehension_length {A B : Type} (f : A -> result B) (xs : list A) (ys : list B) :
  comprehension f xs = Ok ys -> length ys = length xs.
Proof.
  revert ys. induction xs as [|x xs IH]; cbn; intros ys.
  - now intros [= <-].
  - destruct (f x); [|discriminate].
    destruct (comprehension f xs); [|discriminate].
    intros [= <-]. cbn. f_equal. now apply IH.
Qed.

Lemma zip3_length (a b c : list Q) :
  length a = length b -> length b = length c -> length (zip3 a b c) = length a.
Proof.
  revert b c. induction a as [|x a IH]; intros [|y b] [|z c]; cbn; try lia.
  intros Hab Hbc. f_equal. apply IH; lia.
Qed.

(** The end of the core: the quotient rule on every entry, then the zip. *)
Lemma core_tail_length (pv : vec3) (dpv_dp : list vec3) (dphi_dp : list Q)
  (row : list (Q * Q * Q)) :
  length dpv_dp = length dphi_dp ->
  bind (comprehension (_calc_dX_dp_and_dY_dp_from_dpv_dp pv) dpv_dp)
       (fun pos_grad =>
          bind (unzip_pairs pos_grad)
               (fun dXdY => Ok (zip3 (fst dXdY) (snd dXdY) dphi_dp)))
  = Ok row ->
  length row = length dpv_dp.
Proof.
  intros Hlen.
  destruct (comprehension _ dpv_dp) as [pos_grad|] eqn:Ec; cbn [bind]; [|discriminate].
  apply comprehension_length in Ec.
  destruct pos_grad as [|p pg] eqn:Epg; cbn [unzip_pairs bind]; [discriminate|].
  rewrite <- Epg. cbn [fst snd]. intros [= <-].
  rewrite zip3_length; rewrite ?length_map; congruence.
Qed.

Ltac step_truthy g :=
  let E := fresh "E" in
  destruct (truthy g) eqn:E;
  [ destruct (members_truthy _ E) as (? & ? & ?)
  | destruct (first_entries_falsy g E) as (? & ? & ?) ].

(** The accumulators after the four helpers of each class. *)
Lemma helpers_lengths (self : self_t) (g : Geometry) (pv r e_X_r : vec3)
  (e_r_s0 : Q) (R : mat3) (h s : vec3) (acc : accumulators)
  (cls : methods) (n : nat) :
  ~ (e_r_s0 == 0)%Q ->
  (cls = DetectorSpacePredictionParameterisation.cls /\ n = row_length self)
  \/ (cls = Py.cls /\ n = row_length_py self) ->
  bind (if truthy (_detector_parameterisations self)
        then _detector_derivatives cls self g ([], []) pv
        else Ok (A := accumulators) ([], []))
    (fun acc =>
  bind (if truthy (_beam_parameterisations self)
        then _beam_derivatives cls self g acc r e_X_r e_r_s0 else Ok acc)
    (fun acc =>
  bind (if truthy (_xl_orientation_parameterisations self)
        then _xl_orientation_derivatives cls self g acc R h s e_X_r e_r_s0
        else Ok acc)
    (fun acc =>
       if truthy (_xl_unit_cell_parameterisations self)
       then _xl_unit_cell_derivatives cls self g acc R h s e_X_r e_r_s0
       else Ok acc)))
  = Ok acc ->
  length (fst acc) = n /\ length (snd acc) = n.
Proof.
  intros Hd [[-> ->] | [-> ->]];
    cbn [_detector_derivatives _beam_derivatives _xl_orientation_derivatives
         _xl_unit_cell_derivatives DetectorSpacePredictionParameterisation.cls Py.cls];
    unfold row_length, row_length_py.
  - step_truthy (_detector_parameterisations self);
      [erewrite detector_derivatives_run by eassumption|]; cbn [bind];
    (step_truthy (_beam_parameterisations self);
      [erewrite beam_derivatives_run by eassumption|]; cbn [bind]);
    rewrite ?xl_orientation_derivatives_run, ?xl_unit_cell_derivatives_run;
    cbn [bind];
    (destruct (truthy (_xl_orientation_parameterisations self)) eqn:Eo;
      [|destruct (first_entries_falsy _ Eo) as (_ & -> & _)]; cbn [bind]);
    rewrite ?xl_orientation_derivatives_run, ?xl_unit_cell_derivatives_run;
    cbn [bind];
    (destruct (truthy (_xl_unit_cell_parameterisations self)) eqn:Eu;
      [|destruct (first_entries_falsy _ Eu) as (_ & -> & _)]; cbn [bind]);
    rewrite ?xl_orientation_derivatives_run, ?xl_unit_cell_derivatives_run;
    intros [= <-]; cbn [fst snd];
    unfold first_entries, all_entries;
    repeat match goal with H : members _ = _ |- _ => rewrite H end;
    rewrite ?length_app, ?length_map, ?repeat_length, ?length_concat_map;
    cbn [length]; lia.
  - step_truthy (_detector_parameterisations self);
      [erewrite py_detector_derivatives_run by eassumption|]; cbn [bind];
    (step_truthy (_beam_parameterisations self);
      [erewrite py_beam_derivatives_run by eassumption|]; cbn [bind]);
    (destruct (truthy (_xl_orientation_parameterisations self)) eqn:Eo;
      [|destruct (first_entries_falsy _ Eo) as (_ & -> & _)]; cbn [bind]);
    rewrite ?(py_xl_orientation_derivatives_run _ _ _ _ _ _ _ _ Hd),
            ?(py_xl_unit_cell_derivatives_run _ _ _ _ _ _ _ _ Hd);
    cbn [bind];
    (destruct (truthy (_xl_unit_cell_parameterisations self)) eqn:Eu;
      [|destruct (first_entries_falsy _ Eu) as (_ & -> & _)]; cbn [bind]);
    rewrite ?(py_xl_orientation_derivatives_run _ _ _ _ _ _ _ _ Hd),
            ?(py_xl_unit_cell_derivatives_run _ _ _ _ _ _ _ _ Hd);
    intros [= <-]; cbn [fst snd];
    unfold first_entries, all_entries;
    repeat match goal with H : members _ = _ |- _ => rewrite H end;
    rewrite ?length_app, ?length_map, ?repeat_length, ?length_concat_map;
    cbn [length]; lia.
Qed.

Lemma nonzero_above_tolerance (x : Q) :
  negb (Qgtb (Qabs x) tolerance) = false -> ~ (x == 0)%Q.
Proof.
  intros Htest Hx.
  assert (H : negb (Qgtb (Qabs x) tolerance) = true).
  { apply tolerance_test. rewrite Hx. discriminate. }
  congruence.
Qed.

(** Whenever a class returns a row, the row has [row_length] triples
    (compiled helpers) or [row_length_py] triples (pure Python). *)
Lemma gradient_row_length (cls : methods) (self : self_t) (g : Geometry)
  (h s : vec3) (phi : Q) (out : list line) (row : list (Q * Q * Q)) (n : nat) :
  (cls = DetectorSpacePredictionParameterisation.cls /\ n = row_length self)
  \/ (cls = Py.cls /\ n = row_length_py self) ->
  _get_gradients_core cls self g h s phi = (out, Ok row) ->
  length row = n.
Proof.
  intros Hcls. unfold _get_gradients_core. cbv zeta.
  destruct (negb (Qgtb _ tolerance)) eqn:Et.
  - destruct (equatorial_angle g s); discriminate.
  - apply nonzero_above_tolerance in Et. intros [= _ H].
    match type of H with
    | bind ?A _ = _ => destruct A as [acc1|] eqn:E1; cbn [bind] in H; [|discriminate]
    end.
    match type of H with
    | bind ?A _ = _ => destruct A as [acc2|] eqn:E2; cbn [bind] in H; [|discriminate]
    end.
    match type of H with
    | bind ?A _ = _ => destruct A as [acc3|] eqn:E3; cbn [bind] in H; [|discriminate]
    end.
    match type of H with
    | bind ?A _ = _ => destruct A as [acc4|] eqn:E4; cbn [bind] in H; [|discriminate]
    end.
    assert (L : length (fst acc4) = n /\ length (snd acc4) = n).
    { match type of E1 with
      | context [_detector_derivatives _ _ _ _ ?pv] =>
          match type of E3 with
          | context [_xl_orientation_derivatives _ _ _ _ ?R _ _ ?e_X_r _] =>
              match type of E2 with
              | context [_beam_derivatives _ _ _ _ ?r _ _] =>
                  apply (helpers_lengths self g pv r e_X_r R h s Et Hcls)
              end
          end
      end.
      rewrite E1. cbn [bind]. rewrite E2. cbn [bind]. rewrite E3. cbn [bind].
      exact E4. }
    destruct L as [L1 L2].
    destruct acc4 as [dpv_dp dphi_dp]. cbn [fst snd] in L1, L2.
    apply core_tail_length in H; congruence.
Qed.

Lemma first_entries_single {M T : Type} {P : Model.Parameterisation M T} (g : group M) :
  length (members g) <= 1 -> first_entries g = all_entries g.
Proof.
  unfold first_entries, all_entries.
  destruct (members g) as [|m [|m' rest]]; cbn; intros; lia.
Qed.

Lemma all_entries_counted {M T : Type} {P : Model.Parameterisation M T} (g : group M) :
  counted_derivatives g -> all_entries g = AggregateSpec.free_of (members g).
Proof.
  unfold counted_derivatives, all_entries, AggregateSpec.free_of.
  intros H. f_equal. apply map_ext_in. intros m Hm.
  rewrite Forall_forall in H. now apply H.
Qed.

(** With at most one Detector and one Beam model, and one raw derivative
    per free parameter, the row of the class with the compiled helpers
    has one triple per free parameter. *)
Lemma row_length_single_models (self : self_t) :
  length (members (_detector_parameterisations self)) <= 1 ->
  length (members (_beam_parameterisations self)) <= 1 ->
  counted_derivatives (_detector_parameterisations self) ->
  counted_derivatives (_beam_parameterisations self) ->
  counted_derivatives (_xl_orientation_parameterisations self) ->
  counted_derivatives (_xl_unit_cell_parameterisations self) ->
  row_length self = AggregateSpec.total_free_parameters self.
Proof.
  intros Hd Hb Cd Cb Co Cu. unfold row_length, AggregateSpec.total_free_parameters.
  rewrite (first_entries_single _ Hd), (first_entries_single _ Hb).
  now rewrite !all_entries_counted.
Qed.

Lemma row_length_py_single_detector (self : self_t) :
  length (members (_detector_parameterisations self)) <= 1 ->
  row_length_py self = row_length self.
Proof.
  unfold row_length_py, row_length, first_entries.
  destruct (members (_detector_parameterisations self)) as [|m [|m' rest]];
    cbn [length]; intros; lia.
Qed.

(** Where the row does have one triple per free parameter: with at most
    one Detector and one Beam model, whenever either class returns a
    row. *)
Lemma single_models_one_triple_per_parameter (cls : methods) (self : self_t)
  (g : Geometry) (h s : vec3) (phi : Q) (out : list line) (row : list (Q * Q * Q)) :
  cls = DetectorSpacePredictionParameterisation.cls \/ cls = Py.cls ->
  length (members (_detector_parameterisations self)) <= 1 ->
  length (members (_beam_parameterisations self)) <= 1 ->
  counted_derivatives (_detector_parameterisations self) ->
  counted_derivatives (_beam_parameterisations self) ->
  counted_derivatives (_xl_orientation_parameterisations self) ->
  counted_derivatives (_xl_unit_cell_parameterisations self) ->
  _get_gradients_core cls self g h s phi = (out, Ok row) ->
  length row = AggregateSpec.total_free_parameters self.
Proof.
  intros Hcls Hd Hb Cd Cb Co Cu Hrun.
  rewrite <- (row_length_single_models self) by assumption.
  eapply gradient_row_length; [|exact Hrun].
  destruct Hcls as [-> | ->]; [left | right]; split; try reflexivity.
  symmetry. now apply row_length_py_single_detector.
Qed.

(** *** Where the two classes agree *)

Lemma detector_derivatives_agree (self : self_t) (g : Geometry)
  (acc : accumulators) (pv : vec3) :
  length (members (_detector_parameterisations self)) <= 1 ->
  detector_derivatives self g acc pv = Py.detector_derivatives self g acc pv.
Proof.
  intros Hle. destruct acc as [dpv_dp dphi_dp].
  destruct (members (_detector_parameterisations self)) as [|det [|det' rest]] eqn:Hm.
  - unfold detector_derivatives, Py.detector_derivatives. now rewrite Hm.
  - rewrite (detector_derivatives_run _ _ _ _ _ Hm).
    rewrite (py_detector_derivatives_run _ _ _ _ _ Hm).
    cbn [length Nat.mul repeat]. now rewrite !app_nil_r.
  - cbn in Hle. lia.
Qed.

Lemma beam_derivatives_agree (self : self_t) (g : Geometry)
  (acc : accumulators) (r e_X_r : vec3) (e_r_s0 : Q) :
  ~ (e_r_s0 == 0)%Q ->
  beam_derivatives self g acc r e_X_r e_r_s0
  = Py.beam_derivatives self g acc r e_X_r e_r_s0.
Proof.
  intros Hd. destruct acc as [dpv_dp dphi_dp].
  destruct (members (_beam_parameterisations self)) as [|src rest] eqn:Hm.
  - unfold beam_derivatives, Py.beam_derivatives. now rewrite Hm.
  - rewrite (beam_derivatives_run _ _ _ _ _ _ _ Hm).
    now rewrite (py_beam_derivatives_run _ _ _ _ _ _ Hm Hd).
Qed.

(** On a reflection with an integral Miller index the two classes
    compute the same row, as long as the Detector group holds at most
    one model. *)
Lemma classes_agree_single_detector (self : self_t) (g : Geometry)
  (h s : vec3) (phi : Q) :
  integral h ->
  length (members (_detector_parameterisations self)) <= 1 ->
  _get_gradients_core DetectorSpacePredictionParameterisation.cls self g h s phi
  = _get_gradients_core Py.cls self g h s phi.
Proof.
  intros Hint Hle. unfold _get_gradients_core. cbv zeta.
  destruct (negb (Qgtb _ tolerance)) eqn:Et; [reflexivity|].
  apply nonzero_above_tolerance in Et. f_equal.
  cbn [_detector_derivatives _beam_derivatives _xl_orientation_derivatives
       _xl_unit_cell_derivatives DetectorSpacePredictionParameterisation.cls Py.cls].
  rewrite (detector_derivatives_agree _ _ _ _ Hle).
  match goal with
  | |- bind ?A _ = _ => destruct A as [acc1|]; cbn [bind]; [|reflexivity]
  end.
  rewrite (beam_derivatives_agree _ _ _ _ _ Et).
  match goal with
  | |- bind ?A _ = _ => destruct A as [[dpv2 dphi2]|]; cbn [bind]; [|reflexivity]
  end.
  rewrite xl_orientation_derivatives_run,
    (py_xl_orientation_derivatives_run _ _ _ _ _ _ _ _ Et), Hint.
  match goal with
  | |- bind ?A _ = _ => destruct A as [[dpv3 dphi3]|]; cbn [bind]; [|reflexivity]
  end.
  rewrite xl_unit_cell_derivatives_run,
    (py_xl_unit_cell_derivatives_run _ _ _ _ _ _ _ _ Et), Hint.
  reflexivity.
Qed.

(** C5, on the code: both versions of [_beam_derivatives] append, for
    every free parameter of the FIRST Beam model, dphi/dp = - (r . ds0/dp)
    / e_r_s0 and dpv/dp = D . (e_X_r . dphi/dp + ds0/dp), and then return:
    the models after the first contribute no entry at all. *)
Theorem beam_derivatives_first_model_only (self : self_t) (g : Geometry)
  (dpv_dp : list vec3) (dphi_dp : list Q) (r e_X_r : vec3) (e_r_s0 : Q)
  (src : BeamP) (rest : list BeamP) :
  members (_beam_parameterisations self) = src :: rest ->
  ~ (e_r_s0 == 0)%Q ->
  Py.beam_derivatives self g (dpv_dp, dphi_dp) r e_X_r e_r_s0
  = Ok (dpv_dp ++ map (beam_dpv (_D g) r e_X_r e_r_s0) (Model.get_ds_dp src),
        dphi_dp ++ map (beam_dphi r e_r_s0) (Model.get_ds_dp src))
  /\ beam_derivatives self g (dpv_dp, dphi_dp) r e_X_r e_r_s0
     = Ok (dpv_dp ++ map (beam_dpv (_D g) r e_X_r e_r_s0) (Model.get_ds_dp src),
           dphi_dp ++ map (beam_dphi r e_r_s0) (Model.get_ds_dp src)).
Proof.
  intros Hm Hd. split.
  - now apply py_beam_derivatives_run with (rest := rest).
  - now apply beam_derivatives_run with (rest := rest).
Qed.

(** C8, on the code: with a first Detector model [det] and later models
    [rest], the compiled-helper version appends the entries of [det] and
    returns, so that the later models get no entry; the pure-Python
    version appends, for every later model, as many zero entries as
    [det] has raw derivatives, whatever the number of free parameters of
    that later model. *)
Theorem later_detector_models_entries (self : self_t) (g : Geometry)
  (dpv_dp : list vec3) (dphi_dp : list Q) (pv : vec3)
  (det : DetP) (rest : list DetP) :
  members (_detector_parameterisations self) = det :: rest ->
  let n := length (Model.get_ds_dp det) in
  let first := map (detector_dpv (_D g) pv) (Model.get_ds_dp det) in
  detector_derivatives self g (dpv_dp, dphi_dp) pv
  = Ok (dpv_dp ++ first, dphi_dp ++ repeat 0%Q n)
  /\ Py.detector_derivatives self g (dpv_dp, dphi_dp) pv
     = Ok (dpv_dp ++ first ++ repeat vzero (length rest * n),
           dphi_dp ++ repeat 0%Q n ++ repeat 0%Q (length rest * n)).
Proof.
  intros Hm n first. split.
  - now apply detector_derivatives_run with (rest := rest).
  - now apply py_detector_derivatives_run.
Qed.

End Core.

(** *** The classes on concrete objects *)

Section Evaluation.

Import Fixture.

Context {scitbx : MatrixLib}.

(** A rotation by the angle zero is the identity. *)
Hypothesis zero_rotation :
  forall axis, axis_and_angle_as_r3_rotation_matrix axis 0 = identity.

Ltac evaluate_core :=
  unfold get_gradients;
  match goal with
  | |- context [prepare ?o] => change (prepare o) with (Ok geometry)
  end;
  unfold _get_gradients_core; cbn [_axis geometry];
  rewrite zero_rotation; vm_compute; reflexivity.

(** C1, on the code: an object with two Beam models of one free
    parameter each has two free parameters, yet both classes return a
    gradient row of one triple: the parameter of the second Beam model
    has no entry. *)
Theorem two_beam_models_one_triple :
  __len__ two_beams = 2
  /\ get_gradients DetectorSpacePredictionParameterisation.cls two_beams h_ok s_ok 0
     = ([], Ok [(1, 0, 0)%Q])
  /\ get_gradients Py.cls two_beams h_ok s_ok 0 = ([], Ok [(1, 0, 0)%Q]).
Proof.
  split; [reflexivity|]. split; evaluate_core.
Qed.

(** C9, on the code: on an object with two Detector models of one free
    parameter each the class with the compiled helpers returns one
    triple and the pure-Python class returns two. *)
Theorem two_detector_models_classes_differ :
  get_gradients DetectorSpacePredictionParameterisation.cls two_detectors h_ok s_ok 0
  = ([], Ok [(- 1 # 1, 0, 0)%Q])
  /\ get_gradients Py.cls two_detectors h_ok s_ok 0
     = ([], Ok [(- 1 # 1, 0, 0)%Q; (0, 0, 0)%Q])
  /\ get_gradients DetectorSpacePredictionParameterisation.cls two_detectors h_ok s_ok 0
     <> get_gradients Py.cls two_detectors h_ok s_ok 0.
Proof.
  assert (E1 : get_gradients DetectorSpacePredictionParameterisation.cls
                 two_detectors h_ok s_ok 0 = ([], Ok [(- 1 # 1, 0, 0)%Q]))
    by evaluate_core.
  assert (E2 : get_gradients Py.cls two_detectors h_ok s_ok 0
               = ([], Ok [(- 1 # 1, 0, 0)%Q; (0, 0, 0)%Q]))
    by evaluate_core.
  split; [exact E1|]. split; [exact E2|].
  rewrite E1, E2. discriminate.
Qed.

End Evaluation.


Lemma beam_derivatives_first_model_only_witness :
  Py.beam_derivatives Fixture.two_beams Fixture.geometry ([], [])
    (col 0 1 0) (col 0 0 1) 1
  = Ok ([beam_dpv identity (col 0 1 0) (col 0 0 1) 1 (col 1 0 0)],
        [beam_dphi (col 0 1 0) 1 (col 1 0 0)]).
Proof.
  assert (H : ~ (1 == 0)%Q) by discriminate.
  exact (proj1 (beam_derivatives_first_model_only Fixture.two_beams
                  Fixture.geometry [] [] (col 0 1 0) (col 0 0 1)
                  (src := Fixture.one_beam_parameter "Mu1")
                  (rest := [Fixture.one_beam_parameter "Mu2"]) eq_refl H)).
Defined.

Lemma later_detector_models_entries_witness :
  detector_derivatives Fixture.uneven_detectors Fixture.geometry ([], []) (col 0 0 1)
  = Ok ([detector_dpv identity (col 0 0 1) Fixture.shear], [0%Q])
  /\ Py.detector_derivatives Fixture.uneven_detectors Fixture.geometry ([], [])
       (col 0 0 1)
     = Ok ([detector_dpv identity (col 0 0 1) Fixture.shear; vzero],
           [0%Q; 0%Q]).
Proof.
  exact (later_detector_models_entries Fixture.uneven_detectors Fixture.geometry
           [] [] (col 0 0 1)
           (det := Fixture.one_matrix_parameter "Dist")
           (rest := [Fixture.two_matrix_parameters "Tau1" "Tau2"]) eq_refl).
Defined.

Lemma two_beam_models_one_triple_witness :
  __len__ Fixture.two_beams = 2
  /\ get_gradients DetectorSpacePredictionParameterisation.cls Fixture.two_beams
       Fixture.h_ok Fixture.s_ok 0
     = ([], Ok [(1, 0, 0)%Q])
  /\ get_gradients Py.cls Fixture.two_beams Fixture.h_ok Fixture.s_ok 0
     = ([], Ok [(1, 0, 0)%Q]).
Proof.
  exact (two_beam_models_one_triple (scitbx := Fixture.zero_angle_lib)
           (fun _ => eq_refl)).
Defined.

Lemma two_detector_models_classes_differ_witness :
  get_gradients DetectorSpacePredictionParameterisation.cls Fixture.two_detectors
    Fixture.h_ok Fixture.s_ok 0
  <> get_gradients Py.cls Fixture.two_detectors Fixture.h_ok Fixture.s_ok 0.
Proof.
  exact (proj2 (proj2 (two_detector_models_classes_differ
                         (scitbx := Fixture.zero_angle_lib) (fun _ => eq_refl)))).
Defined.

End GradientFacts.

(* ================================================================= *)
(** * Further properties of the parameter aggregate *)

Module AggregateCoverage.

Import PredictionParameterisation AggregateSpec AggregateFacts CoverageSpec.

Section Groups.

Context {M T : Type} {P : Model.Parameterisation M T}.

Lemma skipn_add (a b : nat) (l : list Q) : skipn a (skipn b l) = skipn (b + a) l.
Proof. rewrite skipn_skipn. f_equal. lia. Qed.

Lemma slice_then_rest (o a : nat) (l : list Q) :
  firstn a (skipn o l) ++ skipn (o + a) l = skipn o l.
Proof. rewrite <- skipn_add. apply firstn_skipn. Qed.

Lemma firstn_add_split (a b : nat) (l : list Q) :
  firstn (a + b) l = firstn a l ++ firstn b (skipn a l).
Proof.
  revert l. induction a as [|a IH]; intros l; [reflexivity|].
  destruct l as [|x l]; cbn; [now rewrite firstn_nil | now rewrite IH].
Qed.

Lemma members_regroup_hand (g : group M) (off : nat) (vals : list Q)
  (ms : list M) (r : option exn) :
  hand_slices (members g) off vals = (ms, r) -> members (regroup g ms) = ms.
Proof. destruct g; cbn; [reflexivity | now intros [= <- _]]. Qed.

Lemma four_slices (n1 n2 n3 n4 : nat) (vals : list Q) :
  length vals = n1 + n2 + n3 + n4 ->
  firstn n1 (skipn 0 vals) ++ firstn n2 (skipn n1 vals)
  ++ firstn n3 (skipn (n1 + n2) vals) ++ firstn n4 (skipn (n1 + n2 + n3) vals)
  = vals.
Proof.
  intros Hlen.
  rewrite (firstn_all2 (n := n4)) by (rewrite length_skipn; lia).
  rewrite (slice_then_rest (n1 + n2) n3), (slice_then_rest n1 n2).
  change n1 with (0 + n1) at 2. now rewrite slice_then_rest.
Qed.

Lemma counted_values_length (g : group M) :
  counted_values g ->
  length (concat (map Model.get_param_vals (members g))) = free_of (members g).
Proof.
  unfold counted_values, free_of. rewrite length_concat, map_map.
  intros H. f_equal. apply map_ext_in. intros m Hm.
  rewrite Forall_forall in H. now apply H.
Qed.

Lemma labelled_values_length (label : string) (g : group M) :
  labelled_values g ->
  length (names_of label g)
  = length (concat (map Model.get_param_vals (members g))).
Proof.
  unfold labelled_values, names_of.
  rewrite NameFacts.length_group_names, length_concat, !map_map.
  intros H. f_equal. apply map_ext_in. intros m Hm.
  rewrite Forall_forall in H. now apply H.
Qed.

(** A group whose models accept their slices is served to the end. *)
Lemma hand_slices_accepted (models : list M) (off : nat) (vals : list Q) :
  Forall (fun m => forall vs, length vs = Model.num_free m ->
                     snd (Model.set_param_vals m vs) = None) models ->
  off + free_of models <= length vals ->
  snd (hand_slices models off vals) = None.
Proof.
  revert off. induction models as [|m ms IH]; intros off Hall Hlen; [reflexivity|].
  inversion Hall as [|? ? Hm Hrest]; subst. rewrite free_of_cons in Hlen.
  cbn [hand_slices].
  specialize (Hm (firstn (Model.num_free m) (skipn off vals))).
  rewrite slice_length in Hm by lia. specialize (Hm eq_refl).
  destruct (Model.set_param_vals m _) as [m' r]. cbn [snd] in Hm. subst r.
  specialize (IH (off + Model.num_free m) Hrest).
  destruct (hand_slices ms _ vals) as [ms' r']. cbn [snd] in *. apply IH. lia.
Qed.

(** A group whose models store their slices reports them afterwards. *)
Lemma hand_slices_stored (models : list M) (off : nat) (vals : list Q) :
  Forall (fun m => forall vs, length vs = Model.num_free m ->
                     snd (Model.set_param_vals m vs) = None
                     /\ Model.get_param_vals (fst (Model.set_param_vals m vs)) = vs)
         models ->
  off + free_of models <= length vals ->
  snd (hand_slices models off vals) = None
  /\ concat (map Model.get_param_vals (fst (hand_slices models off vals)))
     = firstn (free_of models) (skipn off vals).
Proof.
  revert off. induction models as [|m ms IH]; intros off Hall Hlen; [auto|].
  inversion Hall as [|? ? Hm Hrest]; subst. rewrite free_of_cons in Hlen |- *.
  cbn [hand_slices].
  specialize (Hm (firstn (Model.num_free m) (skipn off vals))).
  rewrite slice_length in Hm by lia. specialize (Hm eq_refl).
  destruct (Model.set_param_vals m _) as [m' r]. cbn [fst snd] in Hm.
  destruct Hm as [-> Hget].
  specialize (IH (off + Model.num_free m) Hrest).
  destruct (hand_slices ms _ vals) as [ms' r']. cbn [fst snd] in *.
  destruct IH as [-> IH]; [lia|]. split; [reflexivity|].
  cbn [map concat]. now rewrite Hget, IH, <- skipn_add, firstn_add_split.
Qed.

(** The loop over a group never changes the number of its models. *)
Lemma set_param_vals_models_length (models : list M) (it : list Q) :
  length (fst (fst (set_param_vals_models models it))) = length models.
Proof.
  revert it. induction models as [|m ms IH]; intros it; [reflexivity|].
  cbn [set_param_vals_models].
  destruct (next_n (Model.num_free m) it) as [[tmp it']|]; [|reflexivity].
  destruct (Model.set_param_vals m tmp) as [m' [e|]]; [reflexivity|].
  specialize (IH it'). destruct (set_param_vals_models ms it') as [[ms' it''] r].
  cbn [fst length] in *. now rewrite IH.
Qed.

Lemma set_param_vals_group_length (g : group M) (it : list Q) :
  length (members (fst (fst (set_param_vals_group g it)))) = length (members g).
Proof.
  unfold set_param_vals_group. destruct (truthy g); [|reflexivity].
  pose proof (set_param_vals_models_length (members g) it) as H.
  destruct (set_param_vals_models (members g) it) as [[ms it'] r]. exact H.
Qed.

Lemma next_n_raises (n : nat) (it : list Q) (e : exn) :
  next_n n it = Raise e -> e = StopIteration.
Proof.
  revert it. induction n as [|n IH]; intros it; cbn; [discriminate|].
  destruct it as [|x it]; [congruence|].
  destruct (next_n n it) as [[tmp it']|e'] eqn:E; [discriminate|].
  intros [= <-]. eauto.
Qed.


End Groups.


Section Aggregate.

Context {DetP BeamP XloP XlucP : Type}.
Context {det_model : Model.Parameterisation DetP mat3}.
Context {beam_model : Model.Parameterisation BeamP vec3}.
Context {xlo_model : Model.Parameterisation XloP mat3}.
Context {xluc_model : Model.Parameterisation XlucP mat3}.

Abbreviation self_t := (PredictionParameterisation.t DetP BeamP XloP XlucP).

Ltac project_updates :=
  cbn [with_detector_parameterisations with_beam_parameterisations
       with_xl_orientation_parameterisations with_xl_unit_cell_parameterisations
       _detector_parameterisations _beam_parameterisations
       _xl_orientation_parameterisations _xl_unit_cell_parameterisations
       _detector _beam _crystal _gonio _length __len__].

(** X1: a freshly constructed object caches, as its length, the sum of
    [num_free()] over the models of the four groups, a group given as
    [None] or as the empty list counting for nothing. *)
Theorem init_caches_total dm bm cm gm (dets : group DetP) (beams : group BeamP)
  (xlos : group XloP) (xlucs : group XlucP) :
  let self := __init__ dm bm cm gm dets beams xlos xlucs in
  __len__ self = _len self
  /\ __len__ self
     = free_of (members dets) + free_of (members beams)
       + free_of (members xlos) + free_of (members xlucs).
Proof.
  intros self. split; [reflexivity|].
  change (__len__ self) with (_len self). now rewrite _len_total.
Qed.

(** X2: [get_param_vals()] is the concatenation of the models' values,
    group by group in the order Detector, Beam, CrystalOrientation,
    CrystalUnitCell, and has [total_free_parameters()] entries when every
    model reports one value per free parameter. *)
Theorem get_param_vals_order_and_length (self : self_t) :
  get_param_vals self
  = concat (map Model.get_param_vals (members (_detector_parameterisations self)))
    ++ concat (map Model.get_param_vals (members (_beam_parameterisations self)))
    ++ concat (map Model.get_param_vals (members (_xl_orientation_parameterisations self)))
    ++ concat (map Model.get_param_vals (members (_xl_unit_cell_parameterisations self)))
  /\ (counted_values (_detector_parameterisations self) ->
      counted_values (_beam_parameterisations self) ->
      counted_values (_xl_orientation_parameterisations self) ->
      counted_values (_xl_unit_cell_parameterisations self) ->
      length (get_param_vals self) = total_free_parameters self).
Proof.
  split; [apply get_param_vals_concat|].
  intros Cd Cb Co Cu. rewrite get_param_vals_concat, !length_app.
  unfold total_free_parameters. rewrite !counted_values_length by assumption. lia.
Qed.

(** X3: the names line up with the values: when every model reports as
    many names as values, [get_param_names()] and [get_param_vals()]
    have the same length. *)
Theorem names_line_up_with_values (self : self_t) :
  labelled_values (_detector_parameterisations self) ->
  labelled_values (_beam_parameterisations self) ->
  labelled_values (_xl_orientation_parameterisations self) ->
  labelled_values (_xl_unit_cell_parameterisations self) ->
  length (get_param_names self) = length (get_param_vals self).
Proof.
  intros Ld Lb Lo Lu.
  rewrite NameFacts.get_param_names_concat, get_param_vals_concat, !length_app.
  now rewrite !labelled_values_length by assumption.
Qed.

(** X4: with the right number of values, [set_param_vals] returns
    normally as soon as every model accepts a list of [num_free()]
    values: the iterator never runs dry. *)
Theorem set_param_vals_succeeds (self : self_t) (vals : list Q) :
  __len__ self = _len self ->
  length vals = total_free_parameters self ->
  accepts (_detector_parameterisations self) ->
  accepts (_beam_parameterisations self) ->
  accepts (_xl_orientation_parameterisations self) ->
  accepts (_xl_unit_cell_parameterisations self) ->
  snd (set_param_vals self vals) = None.
Proof.
  intros Hwf Hlen Ad Ab Ao Au. rewrite (set_param_vals_refines _ _ Hwf).
  unfold set_param_vals_spec. rewrite (proj2 (Nat.eqb_eq _ _) Hlen). cbv zeta.
  unfold total_free_parameters in Hlen. unfold accepts in *.
  pose proof (@hand_slices_accepted _ _ _ _ 0 vals Ad ltac:(lia)) as A1.
  destruct (hand_slices (members (_detector_parameterisations self)) 0 vals) as [d1 r1].
  cbn [snd] in A1. subst r1.
  pose proof (@hand_slices_accepted _ _ _ _
    (free_of (members (_detector_parameterisations self))) vals Ab ltac:(lia)) as A2.
  destruct (hand_slices (members (_beam_parameterisations self)) _ vals) as [d2 r2].
  cbn [snd] in A2. subst r2.
  pose proof (@hand_slices_accepted _ _ _ _
    (free_of (members (_detector_parameterisations self))
     + free_of (members (_beam_parameterisations self))) vals Ao ltac:(lia)) as A3.
  destruct (hand_slices (members (_xl_orientation_parameterisations self)) _ vals)
    as [d3 r3].
  cbn [snd] in A3. subst r3.
  pose proof (@hand_slices_accepted _ _ _ _
    (free_of (members (_detector_parameterisations self))
     + free_of (members (_beam_parameterisations self))
     + free_of (members (_xl_orientation_parameterisations self))) vals Au ltac:(lia)) as A4.
  destruct (hand_slices (members (_xl_unit_cell_parameterisations self)) _ vals)
    as [d4 r4].
  exact A4.
Qed.

(** X5: what is set can be read back: with the right number of values
    and models that store what they are given, [get_param_vals()] after
    [set_param_vals(vals)] returns [vals]. *)
Theorem set_then_get (self : self_t) (vals : list Q) :
  __len__ self = _len self ->
  length vals = total_free_parameters self ->
  stores (_detector_parameterisations self) ->
  stores (_beam_parameterisations self) ->
  stores (_xl_orientation_parameterisations self) ->
  stores (_xl_unit_cell_parameterisations self) ->
  snd (set_param_vals self vals) = None
  /\ get_param_vals (fst (set_param_vals self vals)) = vals.
Proof.
  intros Hwf Hlen Sd Sb So Su. rewrite (set_param_vals_refines _ _ Hwf).
  unfold set_param_vals_spec. rewrite (proj2 (Nat.eqb_eq _ _) Hlen). cbv zeta.
  unfold total_free_parameters in Hlen. unfold stores in *.
  destruct (@hand_slices_stored _ _ _ _ 0 vals Sd ltac:(lia)) as [A1 G1].
  destruct (hand_slices (members (_detector_parameterisations self)) 0 vals)
    as [d1 r1] eqn:E1.
  cbn [fst snd] in A1, G1. subst r1.
  destruct (@hand_slices_stored _ _ _ _
    (free_of (members (_detector_parameterisations self))) vals Sb ltac:(lia))
    as [A2 G2].
  destruct (hand_slices (members (_beam_parameterisations self)) _ vals)
    as [d2 r2] eqn:E2.
  cbn [fst snd] in A2, G2. subst r2.
  destruct (@hand_slices_stored _ _ _ _
    (free_of (members (_detector_parameterisations self))
     + free_of (members (_beam_parameterisations self))) vals So ltac:(lia))
    as [A3 G3].
  destruct (hand_slices (members (_xl_orientation_parameterisations self)) _ vals)
    as [d3 r3] eqn:E3.
  cbn [fst snd] in A3, G3. subst r3.
  destruct (@hand_slices_stored _ _ _ _
    (free_of (members (_detector_parameterisations self))
     + free_of (members (_beam_parameterisations self))
     + free_of (members (_xl_orientation_parameterisations self))) vals Su ltac:(lia)) as [A4 G4].
  destruct (hand_slices (members (_xl_unit_cell_parameterisations self)) _ vals)
    as [d4 r4] eqn:E4.
  cbn [fst snd] in A4, G4 |- *. subst r4. split; [reflexivity|].
  rewrite get_param_vals_concat. project_updates.
  rewrite (@members_regroup_hand _ _ _ _ _ _ _ _ E1),
    (@members_regroup_hand _ _ _ _ _ _ _ _ E2),
    (@members_regroup_hand _ _ _ _ _ _ _ _ E3),
    (@members_regroup_hand _ _ _ _ _ _ _ _ E4).
  rewrite G1, G2, G3, G4. now apply four_slices.
Qed.


End Aggregate.

Lemma simple_model_counted (T : Type) (l : list (Fixture.simple_model T)) :
  Forall (fun m => length (Model.get_param_vals m) = Model.num_free m) l.
Proof. apply Forall_forall. reflexivity. Qed.

Lemma simple_model_stores (T : Type) (l : list (Fixture.simple_model T)) :
  Forall (fun m => forall vals, length vals = Model.num_free m ->
                     snd (Model.set_param_vals m vals) = None
                     /\ Model.get_param_vals (fst (Model.set_param_vals m vals)) = vals) l.
Proof.
  apply Forall_forall. intros m _ vals Hlen. cbn in *. unfold Fixture.simple_set.
  rewrite (proj2 (Nat.eqb_eq _ _) Hlen). auto.
Qed.

Lemma simple_model_accepts (T : Type) (l : list (Fixture.simple_model T)) :
  Forall (fun m => forall vals, length vals = Model.num_free m ->
                     snd (Model.set_param_vals m vals) = None) l.
Proof.
  eapply Forall_impl; [|apply simple_model_stores]. intros m H vals Hlen.
  now apply H.
Qed.

Lemma simple_model_keeps_num_free (T : Type) :
  keeps_num_free (Fixture.simple_model T).
Proof.
  intros m vals. cbn. unfold Fixture.simple_set.
  destruct (length vals =? length (Fixture.sm_vals m)) eqn:E; [|reflexivity].
  now apply Nat.eqb_eq in E.
Qed.

Lemma get_param_vals_order_and_length_witness :
  length (get_param_vals Fixture.one_of_each)
  = total_free_parameters Fixture.one_of_each.
Proof.
  apply (proj2 (get_param_vals_order_and_length Fixture.one_of_each));
    apply simple_model_counted.
Defined.

Lemma names_line_up_with_values_witness :
  length (get_param_names Fixture.one_of_each)
  = length (get_param_vals Fixture.one_of_each).
Proof.
  apply names_line_up_with_values; repeat constructor.
Defined.

Lemma set_param_vals_succeeds_witness :
  snd (set_param_vals Fixture.one_of_each [1; 2; 3; 4; 5; 6]%Q) = None.
Proof.
  apply set_param_vals_succeeds;
    [reflexivity | reflexivity | apply simple_model_accepts ..].
Defined.

Lemma set_then_get_witness :
  snd (set_param_vals Fixture.one_of_each [1; 2; 3; 4; 5; 6]%Q) = None
  /\ get_param_vals (fst (set_param_vals Fixture.one_of_each [1; 2; 3; 4; 5; 6]%Q))
     = [1; 2; 3; 4; 5; 6]%Q.
Proof.
  apply set_then_get;
    [reflexivity | reflexivity | apply simple_model_stores ..].
Defined.


End AggregateCoverage.

(* ================================================================= *)
(** * Further properties of the gradient computation *)

Module GradientCoverage.

Import PredictionParameterisation GradientSpec CoverageSpec GradientFacts.
Import DetectorSpacePredictionParameterisation.

Module Py := DetectorSpacePredictionParameterisation_py.

Lemma map_const_repeat {A B : Type} (b : B) (xs : list A) :
  map (fun _ => b) xs = repeat b (length xs).
Proof. induction xs as [|x xs IH]; cbn; [reflexivity | now rewrite IH]. Qed.

Lemma map_fst_flat_map {A B C : Type} (f : A -> list (B * C)) (xs : list A) :
  map fst (flat_map f xs) = concat (map (fun x => map fst (f x)) xs).
Proof.
  induction xs as [|x xs IH]; cbn; [reflexivity|]. now rewrite map_app, IH.
Qed.

Lemma map_snd_flat_map {A B C : Type} (f : A -> list (B * C)) (xs : list A) :
  map snd (flat_map f xs) = concat (map (fun x => map snd (f x)) xs).
Proof.
  induction xs as [|x xs IH]; cbn; [reflexivity|]. now rewrite map_app, IH.
Qed.

Lemma calc_nonzero (pv der : vec3) :
  ~ (vz pv == 0)%Q ->
  _calc_dX_dp_and_dY_dp_from_dpv_dp pv der
  = Ok (fst (project pv (der, 0%Q))).
Proof.
  intros Hw. unfold _calc_dX_dp_and_dY_dp_from_dpv_dp, project.
  rewrite !(py_div_nonzero _ Hw), !(py_div_nonzero _ (square_nonzero Hw)).
  reflexivity.
Qed.

Lemma comprehension_total {A B : Type} (f : A -> result B) (k : A -> B) (xs : list A) :
  (forall x, f x = Ok (k x)) -> comprehension f xs = Ok (map k xs).
Proof.
  intros Hf. induction xs as [|x xs IH]; cbn; [reflexivity|]. now rewrite Hf, IH.
Qed.

Lemma comprehension_head_raises {A B : Type} (f : A -> result B) (e : exn)
  (x : A) (xs : list A) :
  f x = Raise e -> comprehension f (x :: xs) = Raise e.
Proof. intros Hf. cbn. now rewrite Hf. Qed.

Lemma zip3_project (pv : vec3) (entries : list (vec3 * Q)) :
  zip3 (map fst (map (fun der => fst (project pv (der, 0%Q))) (map fst entries)))
       (map snd (map (fun der => fst (project pv (der, 0%Q))) (map fst entries)))
       (map snd entries)
  = map (project pv) entries.
Proof.
  induction entries as [|[d p] entries IH]; cbn [map zip3]; [reflexivity|].
  now rewrite IH.
Qed.

(** The end of the core on a non-empty list of pairs. *)
Lemma core_tail_closed (pv : vec3) (entries : list (vec3 * Q)) :
  ~ (vz pv == 0)%Q ->
  entries <> [] ->
  bind (comprehension (_calc_dX_dp_and_dY_dp_from_dpv_dp pv) (map fst entries))
       (fun pos_grad =>
          bind (unzip_pairs pos_grad)
               (fun dXdY => Ok (zip3 (fst dXdY) (snd dXdY) (map snd entries))))
  = Ok (map (project pv) entries).
Proof.
  intros Hw Hne.
  rewrite comprehension_total
    with (k := fun der => fst (project pv (der, 0%Q)))
    by (intros der; now apply calc_nonzero).
  cbn [bind]. unfold unzip_pairs.
  destruct (map _ (map fst entries)) as [|p ps] eqn:Em.
  - apply map_eq_nil, map_eq_nil in Em. contradiction.
  - rewrite <- Em. cbn [bind fst snd]. now rewrite zip3_project.
Qed.

Section Core.

Context {DetP BeamP XloP XlucP : Type}.
Context {det_model : Model.Parameterisation DetP mat3}.
Context {beam_model : Model.Parameterisation BeamP vec3}.
Context {xlo_model : Model.Parameterisation XloP mat3}.
Context {xluc_model : Model.Parameterisation XlucP mat3}.
Context {scitbx : MatrixLib}.

Abbreviation self_t := (PredictionParameterisation.t DetP BeamP XloP XlucP).

(** The accumulators of the pure-Python class after each helper. *)
Lemma py_detector_step (self : self_t) (g : Geometry) (pv : vec3) :
  (if truthy (_detector_parameterisations self)
   then Py.detector_derivatives self g ([], []) pv
   else Ok (A := accumulators) ([], []))
  = Ok (map fst (detector_entries g pv (members (_detector_parameterisations self))),
        map snd (detector_entries g pv (members (_detector_parameterisations self)))).
Proof.
  destruct (truthy (_detector_parameterisations self)) eqn:E.
  - destruct (members_truthy _ E) as (det & rest & Hm).
    rewrite (py_detector_derivatives_run _ _ _ _ _ Hm), Hm.
    unfold detector_entries.
    rewrite !map_app, !map_map, !map_repeat. cbn [fst snd app].
    now rewrite map_const_repeat.
  - destruct (first_entries_falsy _ E) as (_ & _ & ->). reflexivity.
Qed.

Lemma py_beam_step (self : self_t) (g : Geometry) (r e_X_r : vec3) (e_r_s0 : Q)
  (E : list (vec3 * Q)) :
  ~ (e_r_s0 == 0)%Q ->
  (if truthy (_beam_parameterisations self)
   then Py.beam_derivatives self g (map fst E, map snd E) r e_X_r e_r_s0
   else Ok (map fst E, map snd E))
  = Ok (map fst (E ++ beam_entries g r e_X_r e_r_s0
                        (members (_beam_parameterisations self))),
        map snd (E ++ beam_entries g r e_X_r e_r_s0
                        (members (_beam_parameterisations self)))).
Proof.
  intros Hd. destruct (truthy (_beam_parameterisations self)) eqn:Et.
  - destruct (members_truthy _ Et) as (src & rest & Hm).
    rewrite (py_beam_derivatives_run _ _ _ _ _ _ Hm Hd), Hm.
    unfold beam_entries. now rewrite !map_app, !map_map.
  - destruct (first_entries_falsy _ Et) as (_ & _ & ->).
    cbn [beam_entries]. now rewrite app_nil_r.
Qed.

Lemma py_orientation_step (self : self_t) (g : Geometry) (R : mat3)
  (h s e_X_r : vec3) (e_r_s0 : Q) (E : list (vec3 * Q)) :
  ~ (e_r_s0 == 0)%Q ->
  (if truthy (_xl_orientation_parameterisations self)
   then Py.xl_orientation_derivatives self g (map fst E, map snd E) R h s e_X_r e_r_s0
   else Ok (map fst E, map snd E))
  = Ok (map fst (E ++ orientation_entries g R h s e_X_r e_r_s0
                        (members (_xl_orientation_parameterisations self))),
        map snd (E ++ orientation_entries g R h s e_X_r e_r_s0
                        (members (_xl_orientation_parameterisations self)))).
Proof.
  intros Hd. destruct (truthy (_xl_orientation_parameterisations self)) eqn:Et.
  - rewrite (py_xl_orientation_derivatives_run _ _ _ _ _ _ _ _ Hd).
    unfold orientation_entries.
    rewrite !map_app, map_fst_flat_map, map_snd_flat_map.
    do 3 f_equal; f_equal; apply map_ext; intros xlo; now rewrite map_map.
  - destruct (first_entries_falsy _ Et) as (_ & _ & ->).
    cbn [orientation_entries flat_map]. now rewrite app_nil_r.
Qed.

Lemma py_cell_step (self : self_t) (g : Geometry) (R : mat3)
  (h s e_X_r : vec3) (e_r_s0 : Q) (E : list (vec3 * Q)) :
  ~ (e_r_s0 == 0)%Q ->
  (if truthy (_xl_unit_cell_parameterisations self)
   then Py.xl_unit_cell_derivatives self g (map fst E, map snd E) R h s e_X_r e_r_s0
   else Ok (map fst E, map snd E))
  = Ok (map fst (E ++ cell_entries g R h s e_X_r e_r_s0
                        (members (_xl_unit_cell_parameterisations self))),
        map snd (E ++ cell_entries g R h s e_X_r e_r_s0
                        (members (_xl_unit_cell_parameterisations self)))).
Proof.
  intros Hd. destruct (truthy (_xl_unit_cell_parameterisations self)) eqn:Et.
  - rewrite (py_xl_unit_cell_derivatives_run _ _ _ _ _ _ _ _ Hd).
    unfold cell_entries.
    rewrite !map_app, map_fst_flat_map, map_snd_flat_map.
    do 3 f_equal; f_equal; apply map_ext; intros xluc; now rewrite map_map.
  - destruct (first_entries_falsy _ Et) as (_ & _ & ->).
    cbn [cell_entries flat_map]. now rewrite app_nil_r.
Qed.

(** Past the test on [(e X r).s0], the pure-Python core is the quotient
    rule and the zip applied to [py_entries]. *)
Lemma py_core_unfolded (self : self_t) (g : Geometry) (h s : vec3) (phi : Q) :
  (tolerance < Qabs (e_r_s0_of g h phi))%Q ->
  _get_gradients_core Py.cls self g h s phi
  = ([],
     bind (comprehension (_calc_dX_dp_and_dY_dp_from_dpv_dp (mat_vec (_D g) s))
                         (map fst (py_entries self g h s phi)))
          (fun pos_grad =>
             bind (unzip_pairs pos_grad)
                  (fun dXdY => Ok (zip3 (fst dXdY) (snd dXdY)
                                        (map snd (py_entries self g h s phi)))))).
Proof.
  intros Hbig.
  assert (Htest : negb (Qgtb (Qabs (e_r_s0_of g h phi)) tolerance) = false).
  { destruct (negb (Qgtb (Qabs (e_r_s0_of g h phi)) tolerance)) eqn:E; [|reflexivity].
    apply tolerance_test in E. exfalso. exact (Qlt_not_le _ _ Hbig E). }
  pose proof (nonzero_above_tolerance Htest) as Hd.
  unfold _get_gradients_core. cbv zeta.
  change (dot (cross (_axis g) (mat_vec (mat_mul (mat_mul
            (axis_and_angle_as_r3_rotation_matrix (_axis g) phi) (_U g)) (_B g)) h))
            (_s0 g)) with (e_r_s0_of g h phi).
  change (mat_vec (mat_mul (mat_mul
            (axis_and_angle_as_r3_rotation_matrix (_axis g) phi) (_U g)) (_B g)) h)
    with (lattice_vector g h phi).
  rewrite Htest. f_equal.
  cbn [_detector_derivatives _beam_derivatives _xl_orientation_derivatives
       _xl_unit_cell_derivatives Py.cls].
  rewrite py_detector_step. cbn [bind].
  rewrite py_beam_step by exact Hd. cbn [bind].
  rewrite py_orientation_step by exact Hd. cbn [bind].
  rewrite py_cell_step by exact Hd. cbn [bind].
  unfold py_entries. cbv zeta. now rewrite <- !app_assoc.
Qed.


(** X9: past the test on [(e X r).s0], a gradient computation without a
    single parameter raises [ValueError] instead of returning the empty
    row: for any class when all four groups are absent or empty, and
    for the pure-Python class whenever there is no pair to project. *)
Theorem no_parameter_no_row (cls : methods) (self : self_t) (g : Geometry)
  (h s : vec3) (phi : Q) :
  (tolerance < Qabs (e_r_s0_of g h phi))%Q ->
  (truthy (_detector_parameterisations self) = false ->
   truthy (_beam_parameterisations self) = false ->
   truthy (_xl_orientation_parameterisations self) = false ->
   truthy (_xl_unit_cell_parameterisations self) = false ->
   _get_gradients_core cls self g h s phi = ([], Raise ValueError))
  /\ (py_entries self g h s phi = [] ->
      _get_gradients_core Py.cls self g h s phi = ([], Raise ValueError)).
Proof.
  intros Hbig. split.
  - intros Td Tb To Tu.
    assert (Htest : negb (Qgtb (Qabs (e_r_s0_of g h phi)) tolerance) = false).
    { destruct (negb (Qgtb (Qabs (e_r_s0_of g h phi)) tolerance)) eqn:E; [|reflexivity].
      apply tolerance_test in E. exfalso. exact (Qlt_not_le _ _ Hbig E). }
    unfold _get_gradients_core. cbv zeta.
    change (dot (cross (_axis g) (mat_vec (mat_mul (mat_mul
              (axis_and_angle_as_r3_rotation_matrix (_axis g) phi) (_U g)) (_B g)) h))
              (_s0 g)) with (e_r_s0_of g h phi).
    rewrite Htest, Td, Tb, To, Tu. reflexivity.
  - intros Hnil. rewrite py_core_unfolded by exact Hbig. now rewrite Hnil.
Qed.

(** X10: past the test on [(e X r).s0], the pure-Python class raises
    [ZeroDivisionError] when the third component of pv = D.s is zero and
    there is at least one parameter to project. *)
Theorem zero_w_raises (self : self_t) (g : Geometry) (h s : vec3) (phi : Q) :
  (tolerance < Qabs (e_r_s0_of g h phi))%Q ->
  (vz (mat_vec (_D g) s) == 0)%Q ->
  py_entries self g h s phi <> [] ->
  _get_gradients_core Py.cls self g h s phi = ([], Raise ZeroDivisionError).
Proof.
  intros Hbig Hw Hne. rewrite py_core_unfolded by exact Hbig. f_equal.
  destruct (py_entries self g h s phi) as [|e es]; [contradiction|].
  cbn [map].
  rewrite comprehension_head_raises with (e := ZeroDivisionError);
    [reflexivity | now apply quotient_rule_zero_w].
Qed.

(** X11: neither version of [_detector_derivatives] can raise: the
    loop-local list of raw derivatives is bound whenever it is read. *)
Theorem detector_loops_never_raise (self : self_t) (g : Geometry)
  (acc : accumulators) (pv : vec3) :
  (exists acc', detector_derivatives self g acc pv = Ok acc')
  /\ (exists acc', Py.detector_derivatives self g acc pv = Ok acc').
Proof.
  destruct acc as [dpv_dp dphi_dp].
  destruct (members (_detector_parameterisations self)) as [|det rest] eqn:Hm.
  - unfold detector_derivatives, Py.detector_derivatives. rewrite Hm.
    split; eexists; reflexivity.
  - rewrite (detector_derivatives_run _ _ _ _ _ Hm).
    rewrite (py_detector_derivatives_run _ _ _ _ _ Hm).
    split; eexists; reflexivity.
Qed.

(** *** The batch entry point *)

Lemma get_gradients_prepared (cls : methods) (self : self_t) (g : Geometry)
  (h s : vec3) (phi : Q) :
  prepare self = Ok g ->
  get_gradients cls self h s phi = _get_gradients_core cls self g h s phi.
Proof. intros Hp. unfold get_gradients. now rewrite Hp. Qed.

Lemma prepare_with_panel (self : self_t) :
  _detector self <> [] -> exists g, prepare self = Ok g.
Proof.
  unfold prepare. destruct (_detector self); [congruence | eauto].
Qed.

Lemma multi_core_rows (cls : methods) (self : self_t) (g : Geometry)
  (match_list : list (vec3 * vec3 * Q)) (out : list line)
  (rows : list (list (Q * Q * Q))) :
  multi_core cls self g match_list = (out, Ok rows) ->
  Forall2 (fun m row => exists o,
             _get_gradients_core cls self g (fst (fst m)) (snd (fst m)) (snd m)
             = (o, Ok row))
          match_list rows.
Proof.
  revert out rows. induction match_list as [|[[h s] phi] rest IH]; intros out rows; cbn.
  - intros [= _ <-]. constructor.
  - destruct (_get_gradients_core cls self g h s phi) as [o [row|e]] eqn:E1;
      [|discriminate].
    destruct (multi_core cls self g rest) as [o' [rows'|e]] eqn:E2; [|discriminate].
    intros [= _ <-]. constructor; [cbn; eauto | eapply IH; reflexivity].
Qed.

Lemma multi_core_all_ok (cls : methods) (self : self_t) (g : Geometry)
  (match_list : list (vec3 * vec3 * Q)) (rows : list (list (Q * Q * Q))) :
  Forall2 (fun m row => exists o,
             _get_gradients_core cls self g (fst (fst m)) (snd (fst m)) (snd m)
             = (o, Ok row))
          match_list rows ->
  exists out, multi_core cls self g match_list = (out, Ok rows).
Proof.
  induction 1 as [|[[h s] phi] row rest rows' [o Ho] _ [out IH]]; cbn.
  - eauto.
  - cbn in Ho. rewrite Ho, IH. eauto.
Qed.

Lemma multi_core_first_failure (cls : methods) (self : self_t) (g : Geometry)
  (pre post : list (vec3 * vec3 * Q)) (m : vec3 * vec3 * Q) (o : list line) (e : exn) :
  Forall (fun m' => exists o' row,
            _get_gradients_core cls self g (fst (fst m')) (snd (fst m')) (snd m')
            = (o', Ok row)) pre ->
  _get_gradients_core cls self g (fst (fst m)) (snd (fst m)) (snd m) = (o, Raise e) ->
  exists out, multi_core cls self g (pre ++ m :: post) = (out, Raise e).
Proof.
  intros Hpre Hm. induction Hpre as [|[[h s] phi] pre (o' & row & Ho) _ [out IH]]; cbn.
  - destruct m as [[h s] phi]. cbn in Hm. rewrite Hm. eauto.
  - cbn in Ho. rewrite Ho, IH. eauto.
Qed.

(** X12: a batch is its reflections one by one: with a detector that
    has a panel, [get_multi_gradients] returns the rows [rows] exactly
    when [get_gradients] returns, for every reflection of the list in
    turn, the row at the same position. *)
Theorem batch_is_reflection_by_reflection (cls : methods) (self : self_t)
  (match_list : list (vec3 * vec3 * Q)) (rows : list (list (Q * Q * Q))) :
  _detector self <> [] ->
  (exists out, get_multi_gradients cls self match_list = (out, Ok rows))
  <-> Forall2 (fun m row => exists o,
                 get_gradients cls self (fst (fst m)) (snd (fst m)) (snd m)
                 = (o, Ok row))
              match_list rows.
Proof.
  intros Hpanel. destruct (prepare_with_panel _ Hpanel) as [g Hp].
  unfold get_multi_gradients. rewrite Hp. split.
  - intros [out Hrun]. apply multi_core_rows in Hrun.
    eapply Forall2_impl; [|exact Hrun]. intros m row [o Ho].
    exists o. now rewrite (get_gradients_prepared _ _ _ _ _ Hp).
  - intros Hall. apply multi_core_all_ok.
    eapply Forall2_impl; [|exact Hall]. intros m row [o Ho].
    exists o. now rewrite <- (get_gradients_prepared _ _ _ _ _ Hp).
Qed.

(** X13: the first reflection whose gradient computation raises aborts
    the batch with its own exception: no row is returned, whatever
    follows in the list. *)
Theorem first_failing_reflection_aborts_batch (cls : methods) (self : self_t)
  (pre post : list (vec3 * vec3 * Q)) (m : vec3 * vec3 * Q) (o : list line) (e : exn) :
  Forall (fun m' => exists o' row,
            get_gradients cls self (fst (fst m')) (snd (fst m')) (snd m')
            = (o', Ok row)) pre ->
  get_gradients cls self (fst (fst m)) (snd (fst m)) (snd m) = (o, Raise e) ->
  exists out, get_multi_gradients cls self (pre ++ m :: post) = (out, Raise e).
Proof.
  intros Hpre Hm. unfold get_multi_gradients.
  destruct (prepare self) as [g|e0] eqn:Hp.
  - apply multi_core_first_failure with (o := o).
    + eapply Forall_impl; [|exact Hpre]. intros m' (o' & row & Ho).
      exists o', row. now rewrite <- (get_gradients_prepared _ _ _ _ _ Hp).
    + now rewrite <- (get_gradients_prepared _ _ _ _ _ Hp).
  - unfold get_gradients in Hm. rewrite Hp in Hm. injection Hm as _ <-. eauto.
Qed.

End Core.


Lemma no_parameter_no_row_witness :
  _get_gradients_core Py.cls (Fixture.build None None None None) Fixture.geometry
    Fixture.h_ok Fixture.s_ok 0
  = ([], Raise ValueError).
Proof.
  destruct (no_parameter_no_row Py.cls (Fixture.build None None None None)
              (g := Fixture.geometry) (h := Fixture.h_ok) Fixture.s_ok (phi := 0))
    as [H _]; [vm_compute; reflexivity|].
  apply H; reflexivity.
Defined.

Lemma zero_w_raises_witness :
  _get_gradients_core Py.cls Fixture.one_of_each Fixture.geometry
    Fixture.h_ok (col 0 1 0) 0
  = ([], Raise ZeroDivisionError).
Proof.
  apply zero_w_raises;
    [vm_compute; reflexivity | vm_compute; reflexivity | vm_compute; discriminate].
Defined.

Lemma batch_is_reflection_by_reflection_witness :
  exists out,
    get_multi_gradients Py.cls Fixture.two_beams
      [(Fixture.h_ok, Fixture.s_ok, 0%Q); (Fixture.h_ok, Fixture.s_ok, 0%Q)]
    = (out, Ok [[(1, 0, 0)%Q]; [(1, 0, 0)%Q]]).
Proof.
  apply (proj2 (batch_is_reflection_by_reflection Py.cls Fixture.two_beams
                  [(Fixture.h_ok, Fixture.s_ok, 0%Q); (Fixture.h_ok, Fixture.s_ok, 0%Q)]
                  [[(1, 0, 0)%Q]; [(1, 0, 0)%Q]]
                  ltac:(discriminate)));
    repeat constructor; exists []; vm_compute; reflexivity.
Defined.

Lemma first_failing_reflection_aborts_batch_witness :
  exists out,
    get_multi_gradients Py.cls Fixture.two_beams
      ([(Fixture.h_ok, Fixture.s_ok, 0%Q)]
       ++ (Fixture.h_degenerate, Fixture.s_ok, 0%Q)
       :: [(Fixture.h_ok, Fixture.s_ok, 0%Q)])
    = (out, Raise AssertionError).
Proof.
  apply first_failing_reflection_aborts_batch
    with (o := fst (get_gradients Py.cls Fixture.two_beams
                      Fixture.h_degenerate Fixture.s_ok 0)).
  - repeat constructor. exists [], [(1, 0, 0)%Q]. vm_compute. reflexivity.
  - vm_compute. reflexivity.
Defined.

End GradientCoverage.
